(** * safemoon-sdk: the router call builder and the per-network constants

    A shallow embedding of [src/src/router.ts] (the router whose tip option
    is called [ethFee]), of the second router module (tip option [ethTip])
    and of the constant tables that precede it in the same source file.

    Conventions of the embedding.
    - A JSBI integer is a [Z].  A JS [number] is a value of [number]: NaN,
      an infinity, or a multiple of a power of two, with comparison,
      addition rounded to the nearest double precision value, and printing
      in base 16 ([ttl] is one).  The clock is read in whole milliseconds,
      a [Z]; for every time value of a [Date] the division by 1000 and
      [Math.floor] give the whole seconds exactly.
    - A JS exception is a value of [Error]; code that may throw runs in the
      monad [M], which also records, in order, every call the builder makes
      to its collaborators (the address validator, the methods of [Trade]
      and [CurrencyAmount], the clock).
    - [invariant] is the function of the tiny-invariant package in its
      development build: it throws an error that carries the message it was
      given, or no message when none was given.
    - The entity classes ([Trade], [CurrencyAmount], [Percent], ...) and
      [validateAndParseAddress] are not among the sources.  Their data is
      modelled by records, and the methods the builder calls are the members
      of the class [Entities], so every theorem holds for any implementation
      of them. *)

From Stdlib Require Import ZArith List String Ascii Bool Lia.
From Stdlib Require Import Hexadecimal HexadecimalFacts HexadecimalString HexadecimalPos.
From Stdlib Require Import SpecFloat.
Import ListNotations.

#[local] Open Scope string_scope.
#[local] Open Scope Z_scope.

(** ** Constants *)

Inductive ChainId : Set :=
| MAINNET | ROPSTEN | RINKEBY | GÖRLI | KOVAN | BSC_MAINNET | BSC_TESTNET.

(** The numeric value of each member of the enum. *)
Definition ChainId_value (c : ChainId) : Z :=
  match c with
  | MAINNET => 1
  | ROPSTEN => 3
  | RINKEBY => 4
  | GÖRLI => 5
  | KOVAN => 42
  | BSC_MAINNET => 56
  | BSC_TESTNET => 97
  end.

Definition all_ChainId : list ChainId :=
  [MAINNET; ROPSTEN; RINKEBY; GÖRLI; KOVAN; BSC_MAINNET; BSC_TESTNET].

Inductive TradeType : Set := EXACT_INPUT | EXACT_OUTPUT.

Inductive Rounding : Set := ROUND_DOWN | ROUND_HALF_UP | ROUND_UP.

Definition FACTORY_ADDRESS (c : ChainId) : string :=
  match c with
  | MAINNET => "0x26023843814cFF92B8d75311d64D1C032b8b29f2"
  | ROPSTEN => "0xDfD8bbA37423950bD8050C65E698610C57E55cea"
  | RINKEBY => ""
  | GÖRLI => ""
  | KOVAN => ""
  | BSC_MAINNET => "0x86A859773cf6df9C8117F20b0B950adA84e7644d"
  | BSC_TESTNET => "0x0eef57EAE29DA890be9211c010F3e31d950fbE67"
  end.

Definition INIT_CODE_HASH (c : ChainId) : string :=
  match c with
  | MAINNET => "0x7fc48862bb659c6079c67f949053514afd141b7fcc1dc2b0a9474d647c51d670"
  | ROPSTEN => "0x8b4ce8ec78a7c1be0d482d641f59b942070725a4b7782595db30956c6d46e824"
  | RINKEBY => ""
  | GÖRLI => ""
  | KOVAN => ""
  | BSC_MAINNET => "0x7fc48862bb659c6079c67f949053514afd141b7fcc1dc2b0a9474d647c51d670"
  | BSC_TESTNET => "0x058100cd6ec5f46d7d7d1e7084082fa4735355e21527487ff6a88c908174e2be"
  end.

Definition ZERO_HEX : string := "0x0".

(** ** Hexadecimal strings *)

(** [n.toString(16)] for a JSBI integer or a whole JS number: the digits of
    the absolute value, lower case, most significant first, after a minus
    sign when the number is negative. *)
Definition toString16 (n : Z) : string :=
  match n with
  | Z0 => "0"
  | Zpos p => NilEmpty.string_of_uint (Pos.to_hex_uint p)
  | Zneg p => String "-" (NilEmpty.string_of_uint (Pos.to_hex_uint p))
  end.

Definition isLowerHexDigit (c : ascii) : bool :=
  let n := nat_of_ascii c in
  ((48 <=? n)%nat && (n <=? 57)%nat) || ((97 <=? n)%nat && (n <=? 102)%nat).

Definition isHexDigit (c : ascii) : bool :=
  isLowerHexDigit c || ((65 <=? nat_of_ascii c)%nat && (nat_of_ascii c <=? 70)%nat).

Fixpoint forallb_string (f : ascii -> bool) (s : string) : bool :=
  match s with
  | EmptyString => true
  | String c s' => f c && forallb_string f s'
  end.

(** A run of digits with no padding: one digit at least, and a leading
    zero only when it is the whole run. *)
Definition isMinimalDigits (s : string) : bool :=
  match s with
  | EmptyString => false
  | String c EmptyString => isLowerHexDigit c
  | String c s' => isLowerHexDigit c && negb (Ascii.eqb c "0") && forallb_string isLowerHexDigit s'
  end.

(** The format of a numeric field of the call parameters: [0x], then
    lower-case digits without padding. *)
Definition isMinimalHex (s : string) : bool :=
  match s with
  | String "0" (String "x" digits) => isMinimalDigits digits
  | _ => false
  end.

(** [0x] followed by exactly [n] hexadecimal digits of either case. *)
Definition isHexOfLength (n : nat) (s : string) : bool :=
  match s with
  | String "0" (String "x" digits) =>
      Nat.eqb (String.length digits) n && forallb_string isHexDigit digits
  | _ => false
  end.

(** ** Numbers

    A JS [number] is a double precision value: NaN, an infinity, or
    [m * 2^e] for integers [m] and [e].  One value has several such
    pairs; the operations depend on the value alone.  The sign of zero is
    left out: no operation of the routers tells the two zeros apart. *)

Inductive number : Set :=
| NaN
| Infinity (negative : bool)
| Finite (m e : Z).

(** The number that a whole number written in the source stands for. *)
Definition Number_ofZ (z : Z) : number := Finite z 0.

(** [a > b] *)
Definition Number_gtb (a b : number) : bool :=
  match a, b with
  | NaN, _ | _, NaN => false
  | Infinity negative, Infinity negative' => negb negative && negative'
  | Infinity negative, Finite _ _ => negb negative
  | Finite _ _, Infinity negative => negative
  | Finite m e, Finite m' e' =>
      let least := Z.min e e' in
      m' * 2 ^ (e' - least) <? m * 2 ^ (e - least)
  end.

(** The double nearest to [m * 2^e], the even one of two that are equally
    near: 53 bits of precision, steps of [2^-1074] at least, and an
    infinity from [2^1024] on. *)
Definition roundDouble (m e : Z) : number :=
  if m =? 0 then Finite 0 0
  else
    let unit := Z.max (Z.log2 (Z.abs m) + e - 52) (-1074) in
    if unit <=? e then
      if Z.log2 (Z.abs m) + e <? 1024 then Finite m e else Infinity (m <? 0)
    else
      let q := Z.abs m / 2 ^ (unit - e) in
      let r := Z.abs m mod 2 ^ (unit - e) in
      let half := 2 ^ (unit - e - 1) in
      let q' := if (half <? r) || ((r =? half) && Z.odd q) then q + 1 else q in
      if (971 <? unit) || ((unit =? 971) && (2 ^ 53 <=? q'))
      then Infinity (m <? 0)
      else Finite (Z.sgn m * q') unit.

(** [a + b] *)
Definition Number_add (a b : number) : number :=
  match a, b with
  | NaN, _ | _, NaN => NaN
  | Infinity negative, Infinity negative' =>
      if Bool.eqb negative negative' then Infinity negative else NaN
  | Infinity negative, Finite _ _ | Finite _ _, Infinity negative => Infinity negative
  | Finite m e, Finite m' e' =>
      let least := Z.min e e' in
      roundDouble (m * 2 ^ (e - least) + m' * 2 ^ (e' - least)) least
  end.

(** The digits after the point of [rest / unit], a proper fraction whose
    denominator is a power of two. *)
Fixpoint fractionDigits (fuel : nat) (rest unit : Z) : string :=
  match fuel with
  | O => ""
  | S fuel' =>
      if rest =? 0 then ""
      else toString16 (16 * rest / unit) ++ fractionDigits fuel' (16 * rest mod unit) unit
  end.

(** [n.toString(16)] for a number: the names of NaN and of the infinities,
    the digits of a whole number, and for any other number the digits of
    the whole part, a point, and the digits of the fraction, which end
    since the denominator is a power of two.  (The standard leaves the
    digits of a fraction to the implementation; these are the exact ones,
    which V8 prints.) *)
Definition Number_toString16 (n : number) : string :=
  match n with
  | NaN => "NaN"
  | Infinity false => "Infinity"
  | Infinity true => "-Infinity"
  | Finite m e =>
      if 0 <=? e then toString16 (m * 2 ^ e)
      else
        let unit := 2 ^ (- e) in
        let rest := Z.abs m mod unit in
        (if m <? 0 then "-" else "")
        ++ toString16 (Z.abs m / unit)
        ++ (if rest =? 0 then "" else "." ++ fractionDigits (Z.to_nat (- e)) rest unit)
  end.

(** [a === b] *)
Definition Number_eqb (a b : number) : bool :=
  match a, b with
  | Infinity negative, Infinity negative' => Bool.eqb negative negative'
  | Finite m e, Finite m' e' =>
      let least := Z.min e e' in
      m * 2 ^ (e - least) =? m' * 2 ^ (e' - least)
  | _, _ => false
  end.

(** The value is a double: rounding leaves it as it is. *)
Definition isDouble (n : number) : bool :=
  match n with
  | Finite m e => Number_eqb (roundDouble m e) (Finite m e)
  | _ => true
  end.

(** The integer that a whole number is. *)
Definition Number_toZ (n : number) : option Z :=
  match n with
  | Finite m e =>
      if 0 <=? e then Some (m * 2 ^ e)
      else if m mod 2 ^ (- e) =? 0 then Some (m / 2 ^ (- e)) else None
  | _ => None
  end.

(** The same number in the binary64 format of the standard library. *)
Definition binary64 (n : number) : spec_float :=
  match n with
  | NaN => S754_nan
  | Infinity negative => S754_infinity negative
  | Finite m e => binary_normalize 53 1024 m e false
  end.

Definition sameNumber (n : number) (f : spec_float) : bool :=
  match n, f with
  | NaN, S754_nan => true
  | Infinity negative, S754_infinity negative' => Bool.eqb negative negative'
  | Finite m e, S754_zero _ => m =? 0
  | Finite m e, S754_finite negative m' e' =>
      let least := Z.min e e' in
      m * 2 ^ (e - least) =? (if negative then Z.neg m' else Z.pos m') * 2 ^ (e' - least)
  | _, _ => false
  end.

(** [Number_add] gives what the addition of binary64 gives. *)
Definition addsAsBinary64 (a b : number) : bool :=
  sameNumber (Number_add a b) (SFadd 53 1024 (binary64 a) (binary64 b)).

(** ** Entities

    The data of the entity classes, as far as the router reads it. *)

Record Token : Set := { chainId : ChainId; address : string; decimals : Z }.

(** A currency is the native asset, of which there is one object, [ETHER],
    or a token. *)
Inductive Currency : Set :=
| ETHER
| TokenCurrency (token : Token).

(** [currency === ETHER] *)
Definition isETHER (c : Currency) : bool :=
  match c with
  | ETHER => true
  | TokenCurrency _ => false
  end.

Record CurrencyAmount : Set := { currency : Currency; raw : Z }.

Record Percent : Set := { numerator : Z; denominator : Z }.

Record Route : Set := { path : list Token }.

Record Trade : Set := {
  route : Route;
  tradeType : TradeType;
  inputAmount : CurrencyAmount;
  outputAmount : CurrencyAmount
}.

(** ** Exceptions and calls *)

Inductive Error : Set :=
| InvariantFailed (message : option string)
| MismatchedCurrencies
| DivisionByZero
| TypeError.

(** The calls the builder makes to code outside the router module. *)
Inductive Call : Set :=
| CallValidateAndParseAddress (recipient : string)
| CallMaximumAmountIn (slippageTolerance : Percent)
| CallMinimumAmountOut (slippageTolerance : Percent)
| CallGetTime
| CallAdd (a b : CurrencyAmount).

(** The calls that compute an amount. *)
Definition isAmountComputation (c : Call) : bool :=
  match c with
  | CallMaximumAmountIn _ | CallMinimumAmountOut _ | CallAdd _ _ => true
  | CallValidateAndParseAddress _ | CallGetTime => false
  end.

(** A computation that makes calls, in order, and then returns or throws. *)
Definition M (A : Type) : Type := (list Call * (Error + A))%type.

Definition ret {A : Type} (a : A) : M A := ([], inr a).

Definition throw {A : Type} (e : Error) : M A := ([], inl e).

Definition bind {A B : Type} (m : M A) (k : A -> M B) : M B :=
  match m with
  | (calls, inl e) => (calls, inl e)
  | (calls, inr a) => let (calls', r) := k a in ((calls ++ calls')%list, r)
  end.

Definition call {A : Type} (c : Call) (outcome : Error + A) : M A := ([c], outcome).

Declare Scope router_scope.
Delimit Scope router_scope with router.
Notation "x <- m ;; k" := (bind m (fun x => k))
  (at level 61, m at next level, right associativity) : router_scope.
Notation "m ;; k" := (bind m (fun _ => k))
  (at level 61, right associativity) : router_scope.
#[local] Open Scope router_scope.

Definition calls {A : Type} (m : M A) : list Call := fst m.
Definition outcome {A : Type} (m : M A) : Error + A := snd m.

(** [invariant(condition, message)] of tiny-invariant. *)
Definition invariant (condition : bool) (message : option string) : M unit :=
  if condition then ret tt else throw (InvariantFailed message).

(** Reading a property of [x], which throws when [x] is [undefined]. *)
Definition defined {A : Type} (x : option A) : M A :=
  match x with
  | Some a => ret a
  | None => throw TypeError
  end.

(** [new Date().getTime()], given what the clock shows. *)
Definition getTime (now : Z) : M Z := call CallGetTime (inr now).

Definition toLowerCase_ascii (c : ascii) : ascii :=
  let n := nat_of_ascii c in
  if ((65 <=? n)%nat && (n <=? 90)%nat)%bool then ascii_of_nat (n + 32) else c.

Fixpoint toLowerCase (s : string) : string :=
  match s with
  | EmptyString => EmptyString
  | String c s' => String (toLowerCase_ascii c) (toLowerCase s')
  end.

Definition ChainId_eqb (a b : ChainId) : bool := ChainId_value a =? ChainId_value b.

(** Modelled from the spec: equality of currencies, a method of the entity
    classes.  The native asset equals itself only, and two tokens are equal
    when network id and address match, the address without regard to
    case. *)
Definition currencyEquals (a b : Currency) : bool :=
  match a, b with
  | ETHER, ETHER => true
  | TokenCurrency s, TokenCurrency t =>
      ChainId_eqb (chainId s) (chainId t)
      && String.eqb (toLowerCase (address s)) (toLowerCase (address t))
  | _, _ => false
  end.

(** Modelled from the spec: [CurrencyAmount.add], a method of the entity
    classes.  Arithmetic between two amounts requires identical currency,
    else fails; the sum has that currency and the sum of the raw
    integers. *)
Definition CurrencyAmount_add (a b : CurrencyAmount) : M CurrencyAmount :=
  call (CallAdd a b)
    (if currencyEquals (currency a) (currency b)
     then inr {| currency := currency a; raw := raw a + raw b |}
     else inl MismatchedCurrencies).

(** The methods of the entity classes and of the utilities that the router
    calls and that throw or return as their implementation decides. *)
Class Entities : Type := {
  validateAndParseAddress : string -> Error + string;
  maximumAmountIn : Trade -> Percent -> Error + CurrencyAmount;
  minimumAmountOut : Trade -> Percent -> Error + CurrencyAmount
}.

(** ** The call parameters *)

(** The interface [SafeSwapTrade]; its field [path] is [swapPath] here,
    [path] being the field of [Route]. *)
Record SafeSwapTrade : Set := {
  amountIn : string;
  amountOut : string;
  swapPath : list string;
  to : string;
  deadline : string
}.

(** An element of [args]: [string | string[] | SafeSwapTrade]. *)
Inductive Arg : Set :=
| ArgString (s : string)
| ArgStrings (l : list string)
| ArgSafeSwapTrade (t : SafeSwapTrade).

Record SwapParameters : Set := {
  methodName : string;
  args : list Arg;
  value : string
}.

Definition toHex (currencyAmount : CurrencyAmount) : string :=
  "0x" ++ toString16 (raw currencyAmount).

(** ** The router of [src/src/router.ts] *)

Module FeeRouter.

Record TradeOptions : Set := {
  allowedSlippage : Percent;
  ttl : number;
  recipient : string;
  feeOnTransfer : option bool;
  ethFee : option CurrencyAmount
}.

Section Router.
Context {E : Entities}.

(** [Router.swapCallParameters(trade, options)], run when the clock
    shows [now] milliseconds. *)
Definition swapCallParameters (now : Z) (trade : Trade) (options : TradeOptions)
  : M SwapParameters :=
  let etherIn := isETHER (currency (inputAmount trade)) in
  let etherOut := isETHER (currency (outputAmount trade)) in
  invariant (negb (etherIn && etherOut)) (Some "ETHER_IN_OUT") ;;
  invariant (Number_gtb (ttl options) (Number_ofZ 0)) (Some "TTL") ;;
  invariant (match ethFee options with
             | Some fee => isETHER (currency fee)
             | None => false
             end) None ;;
  to <- call (CallValidateAndParseAddress (recipient options))
             (validateAndParseAddress (recipient options)) ;;
  amountInCurrency <- call (CallMaximumAmountIn (allowedSlippage options))
                           (maximumAmountIn trade (allowedSlippage options)) ;;
  let amountIn := toHex amountInCurrency in
  amountOutCurrency <- call (CallMinimumAmountOut (allowedSlippage options))
                            (minimumAmountOut trade (allowedSlippage options)) ;;
  let amountOut := toHex amountOutCurrency in
  let path := map address (path (route trade)) in
  time <- getTime now ;;
  let deadline :=
    "0x" ++ Number_toString16 (Number_add (Number_ofZ (time / 1000)) (ttl options)) in
  fee <- defined (ethFee options) ;;
  let ethFee := toHex fee in
  let safeSwapTrade :=
    {| amountIn := amountIn; amountOut := amountOut; swapPath := path;
       to := to; deadline := deadline |} in
  match tradeType trade with
  | EXACT_INPUT =>
      if etherIn then
        total <- CurrencyAmount_add amountInCurrency fee ;;
        ret {| methodName := "swapExactETHForTokensWithFeeAmount";
               args := [ArgSafeSwapTrade safeSwapTrade; ArgString ethFee];
               value := toHex total |}
      else if etherOut then
        ret {| methodName := "swapExactTokensForETHAndTipAmount";
               args := [ArgSafeSwapTrade safeSwapTrade];
               value := ethFee |}
      else
        ret {| methodName := "swapExactTokensForTokensWithFeeAmount";
               args := [ArgSafeSwapTrade safeSwapTrade];
               value := ethFee |}
  | EXACT_OUTPUT =>
      if etherIn then
        total <- CurrencyAmount_add amountInCurrency fee ;;
        ret {| methodName := "swapETHForExactTokensWithFeeAmount";
               args := [ArgSafeSwapTrade safeSwapTrade; ArgString ethFee];
               value := toHex total |}
      else if etherOut then
        ret {| methodName := "swapTokensForExactETHAndFeeAmount";
               args := [ArgSafeSwapTrade safeSwapTrade];
               value := ethFee |}
      else
        ret {| methodName := "swapTokensForExactTokensWithFeeAmount";
               args := [ArgSafeSwapTrade safeSwapTrade];
               value := ethFee |}
  end.

End Router.

End FeeRouter.

(** ** The second router module, whose tip option is [ethTip] *)

Module TipRouter.

Record TradeOptions : Set := {
  allowedSlippage : Percent;
  ttl : number;
  recipient : string;
  feeOnTransfer : option bool;
  ethTip : option CurrencyAmount
}.

(** [Boolean(x)] for an optional boolean. *)
Definition Boolean (x : option bool) : bool :=
  match x with
  | Some b => b
  | None => false
  end.

Section Router.
Context {E : Entities}.

Definition swapCallParameters (now : Z) (trade : Trade) (options : TradeOptions)
  : M SwapParameters :=
  let etherIn := isETHER (currency (inputAmount trade)) in
  let etherOut := isETHER (currency (outputAmount trade)) in
  invariant (negb (etherIn && etherOut)) (Some "ETHER_IN_OUT") ;;
  invariant (Number_gtb (ttl options) (Number_ofZ 0)) (Some "TTL") ;;
  invariant (match ethTip options with
             | Some tip => isETHER (currency tip)
             | None => false
             end) None ;;
  to <- call (CallValidateAndParseAddress (recipient options))
             (validateAndParseAddress (recipient options)) ;;
  amountInCurrency <- call (CallMaximumAmountIn (allowedSlippage options))
                           (maximumAmountIn trade (allowedSlippage options)) ;;
  let amountIn := toHex amountInCurrency in
  amountOutCurrency <- call (CallMinimumAmountOut (allowedSlippage options))
                            (minimumAmountOut trade (allowedSlippage options)) ;;
  let amountOut := toHex amountOutCurrency in
  let path := map address (path (route trade)) in
  time <- getTime now ;;
  let deadline :=
    "0x" ++ Number_toString16 (Number_add (Number_ofZ (time / 1000)) (ttl options)) in
  tip <- defined (ethTip options) ;;
  let ethTip := toHex tip in
  let safeSwapTrade :=
    {| amountIn := amountIn; amountOut := amountOut; swapPath := path;
       to := to; deadline := deadline |} in
  let useFeeOnTransfer := Boolean (feeOnTransfer options) in
  match tradeType trade with
  | EXACT_INPUT =>
      if etherIn then
        total <- CurrencyAmount_add amountInCurrency tip ;;
        ret {| methodName := "swapExactETHForTokensWithTipAmount";
               args := [ArgSafeSwapTrade safeSwapTrade; ArgString ethTip];
               value := toHex total |}
      else if etherOut then
        ret {| methodName := "swapExactTokensForETHAndTipAmount";
               args := [ArgSafeSwapTrade safeSwapTrade];
               value := ethTip |}
      else
        ret {| methodName := "swapExactTokensForTokensWithTipAmount";
               args := [ArgSafeSwapTrade safeSwapTrade];
               value := ethTip |}
  | EXACT_OUTPUT =>
      if etherIn then
        total <- CurrencyAmount_add amountInCurrency tip ;;
        ret {| methodName := "swapETHForExactTokensWithTipAmount";
               args := [ArgSafeSwapTrade safeSwapTrade; ArgString ethTip];
               value := toHex total |}
      else if etherOut then
        ret {| methodName := "swapTokensForExactETHAndTipAmount";
               args := [ArgSafeSwapTrade safeSwapTrade];
               value := ethTip |}
      else
        ret {| methodName := "swapTokensForExactTokensWithTipAmount";
               args := [ArgSafeSwapTrade safeSwapTrade];
               value := ethTip |}
  end.

End Router.

End TipRouter.

(** ** Implementations of the entities, taken from the specification *)

(** Modelled from the spec: [Fraction.toInteger], of the entity classes.
    The integer next to [n / d] in the direction the rounding mode gives:
    toward zero, half away from zero, or away from zero unless exact.
    Division by a zero denominator fails with an arithmetic error. *)
Definition toInteger (rounding : Rounding) (n d : Z) : Error + Z :=
  if d =? 0 then inl DivisionByZero
  else
    let q := Z.quot n d in
    let r := Z.rem n d in
    let away := q + Z.sgn n * Z.sgn d in
    inr match rounding with
        | ROUND_DOWN => q
        | ROUND_HALF_UP => if Z.abs d <=? 2 * Z.abs r then away else q
        | ROUND_UP => if r =? 0 then q else away
        end.

Definition withRaw (c : Currency) (integer : Error + Z) : Error + CurrencyAmount :=
  match integer with
  | inl e => inl e
  | inr n => inr {| currency := c; raw := n |}
  end.

(** Modelled from the spec: [Trade.maximumAmountIn], a method of the entity
    classes.  For EXACT_OUTPUT trades, inputAmount * (1 + slippageTolerance),
    ROUND_UP; for EXACT_INPUT, the inputAmount unchanged. *)
Definition spec_maximumAmountIn (trade : Trade) (slippageTolerance : Percent)
  : Error + CurrencyAmount :=
  match tradeType trade with
  | EXACT_INPUT => inr (inputAmount trade)
  | EXACT_OUTPUT =>
      withRaw (currency (inputAmount trade))
        (toInteger ROUND_UP
           (raw (inputAmount trade)
            * (denominator slippageTolerance + numerator slippageTolerance))
           (denominator slippageTolerance))
  end.

(** Modelled from the spec: [Trade.minimumAmountOut], a method of the entity
    classes.  For EXACT_INPUT trades, outputAmount * (1 / (1 +
    slippageTolerance)), ROUND_DOWN; for EXACT_OUTPUT, the outputAmount
    unchanged. *)
Definition spec_minimumAmountOut (trade : Trade) (slippageTolerance : Percent)
  : Error + CurrencyAmount :=
  match tradeType trade with
  | EXACT_INPUT =>
      if denominator slippageTolerance =? 0 then inl DivisionByZero
      else
        withRaw (currency (outputAmount trade))
          (toInteger ROUND_DOWN
             (raw (outputAmount trade) * denominator slippageTolerance)
             (denominator slippageTolerance + numerator slippageTolerance))
  | EXACT_OUTPUT => inr (outputAmount trade)
  end.

(** Modelled from the spec: [validateAndParseAddress], the address validator
    of the utilities.  It accepts a 20-byte hex address and fails on
    malformed input, with a reason of its own.  The spec leaves the normal
    form open: the model returns an accepted address as it was given. *)
Definition spec_validateAndParseAddress (recipient : string) : Error + string :=
  if isHexOfLength 40 recipient then inr recipient
  else inl (InvariantFailed (Some (recipient ++ " is not a valid address."))).

Definition specEntities : Entities :=
  {| validateAndParseAddress := spec_validateAndParseAddress;
     maximumAmountIn := spec_maximumAmountIn;
     minimumAmountOut := spec_minimumAmountOut |}.

(** ** Sample data *)

Module Sample.

Definition token0 : Token :=
  {| chainId := BSC_MAINNET;
     address := "0x0000000000000000000000000000000000000001";
     decimals := 18 |}.

Definition token1 : Token :=
  {| chainId := BSC_MAINNET;
     address := "0x0000000000000000000000000000000000000002";
     decimals := 18 |}.

(** The wrapped form of the native asset, which a route through the
    native asset starts or ends with. *)
Definition weth : Token :=
  {| chainId := BSC_MAINNET;
     address := "0xbb4CdB9CBd36B01bD1cBaEBF2De08d9173bc095c";
     decimals := 18 |}.

Definition ether (n : Z) : CurrencyAmount := {| currency := ETHER; raw := n |}.

Definition tokens (t : Token) (n : Z) : CurrencyAmount :=
  {| currency := TokenCurrency t; raw := n |}.

Definition trade (type : TradeType) (input output : CurrencyAmount) (tokenPath : list Token)
  : Trade :=
  {| route := {| path := tokenPath |}; tradeType := type;
     inputAmount := input; outputAmount := output |}.

(** One hop, 100 of the native asset in, 69 of [token0] out. *)
Definition etherToToken (type : TradeType) : Trade :=
  trade type (ether 100) (tokens token0 69) [weth; token0].

Definition tokenToEther (type : TradeType) : Trade :=
  trade type (tokens token0 100) (ether 69) [token0; weth].

Definition tokenToToken (type : TradeType) : Trade :=
  trade type (tokens token0 100) (tokens token1 69) [token0; token1].

Definition etherToEther (type : TradeType) : Trade :=
  trade type (ether 100) (ether 69) [weth; weth].

Definition onePercent : Percent := {| numerator := 1; denominator := 100 |}.

Definition account : string := "0x0000000000000000000000000000000000000004".

(** 2021-05-01T00:00:00Z, in milliseconds. *)
Definition clock : Z := 1619827200000.

Definition feeOptions (seconds : Z) (receiver : string) (fee : option CurrencyAmount)
  : FeeRouter.TradeOptions :=
  {| FeeRouter.allowedSlippage := onePercent; FeeRouter.ttl := Number_ofZ seconds;
     FeeRouter.recipient := receiver; FeeRouter.feeOnTransfer := None;
     FeeRouter.ethFee := fee |}.

Definition tipOptions (seconds : Z) (receiver : string) (tip : option CurrencyAmount)
  : TipRouter.TradeOptions :=
  {| TipRouter.allowedSlippage := onePercent; TipRouter.ttl := Number_ofZ seconds;
     TipRouter.recipient := receiver; TipRouter.feeOnTransfer := None;
     TipRouter.ethTip := tip |}.

Definition notAnAddress : string := "0xinvalid".

(** Options that pass every check when the clock shows [clock]. *)
Definition options (fee : CurrencyAmount) : FeeRouter.TradeOptions :=
  feeOptions 1200 account (Some fee).

(** Options without a tip, otherwise valid. *)
Definition optionsWithoutFee : FeeRouter.TradeOptions :=
  feeOptions 1200 account None.

(** Options whose tip is an amount of a token. *)
Definition optionsWithTokenFee : FeeRouter.TradeOptions :=
  feeOptions 1200 account (Some (tokens token0 5)).

(** Options without a tip and with a recipient that is no address. *)
Definition optionsWithBadRecipient : FeeRouter.TradeOptions :=
  feeOptions 1200 notAnAddress None.

End Sample.

(** ** Vocabulary of the specification *)

(** Reading a run of lower-case hexadecimal digits as a number. *)
Definition parseDigits (s : string) : option N :=
  option_map Pos.of_hex_uint (NilEmpty.uint_of_string s).

(** Where the native asset stands in a trade. *)
Inductive NativePosition : Set := NativeIn | NativeOut | TokenToToken.

Definition nativePosition (trade : Trade) : NativePosition :=
  if isETHER (currency (inputAmount trade)) then NativeIn
  else if isETHER (currency (outputAmount trade)) then NativeOut
  else TokenToToken.

(** The method-name surface as the specification lists it, keyed by trade
    side and native-asset position. *)
Definition spec_methodName (type : TradeType) (position : NativePosition) : string :=
  match type, position with
  | EXACT_INPUT, NativeIn => "swapExactETHForTokensWithFeeAmount"
  | EXACT_INPUT, NativeOut => "swapExactTokensForETHAndTipAmount"
  | EXACT_INPUT, TokenToToken => "swapExactTokensForTokensWithFeeAmount"
  | EXACT_OUTPUT, NativeIn => "swapETHForExactTokensWithFeeAmount"
  | EXACT_OUTPUT, NativeOut => "swapTokensForExactETHAndFeeAmount"
  | EXACT_OUTPUT, TokenToToken => "swapTokensForExactTokensWithFeeAmount"
  end.

(** The record [{amountIn, amountOut, path, to, deadline}] for given
    slippage-adjusted amounts, parsed recipient and clock. *)
Definition spec_safeSwapTrade (now : Z) (trade : Trade) (seconds : number)
    (receiver : string) (maxIn minOut : CurrencyAmount) : SafeSwapTrade :=
  {| amountIn := toHex maxIn;
     amountOut := toHex minOut;
     swapPath := map address (path (route trade));
     to := receiver;
     deadline :=
       "0x" ++ Number_toString16 (Number_add (Number_ofZ (now / 1000)) seconds) |}.

(** An error that carries a reason. *)
Definition isNamed (e : Error) : bool :=
  match e with
  | InvariantFailed (Some _) => true
  | _ => false
  end.

Definition throws {A : Type} (m : M A) : bool :=
  match outcome m with
  | inl _ => true
  | inr _ => false
  end.

Definition computesNoAmount {A : Type} (m : M A) : bool :=
  negb (existsb isAmountComputation (calls m)).

(** The networks for which the constant tables have entries that are not
    empty. *)
Definition hasDeployment (c : ChainId) : bool :=
  match c with
  | MAINNET | ROPSTEN | BSC_MAINNET | BSC_TESTNET => true
  | RINKEBY | GÖRLI | KOVAN => false
  end.

(** The options of the second router that correspond to options of the
    first: the same fields, the tip under its other name. *)
Definition renameTip (options : FeeRouter.TradeOptions) : TipRouter.TradeOptions :=
  {| TipRouter.allowedSlippage := FeeRouter.allowedSlippage options;
     TipRouter.ttl := FeeRouter.ttl options;
     TipRouter.recipient := FeeRouter.recipient options;
     TipRouter.feeOnTransfer := FeeRouter.feeOnTransfer options;
     TipRouter.ethTip := FeeRouter.ethFee options |}.

(** Both currencies of the trade are the native asset. *)
Definition bothNative (trade : Trade) : bool :=
  isETHER (currency (inputAmount trade)) && isETHER (currency (outputAmount trade)).

(** A tip is supplied and its currency is the native asset. *)
Definition feeIsNative (options : FeeRouter.TradeOptions) : bool :=
  match FeeRouter.ethFee options with
  | Some fee => isETHER (currency fee)
  | None => false
  end.

Section Validation.
Context {E : Entities}.

(** The four checks of [swapCallParameters] pass: not both currencies
    native, a ttl greater than zero, a tip [fee] supplied in the native asset, and
    a recipient the validator parses to [receiver]. *)
Record passesValidation (trade : Trade) (options : FeeRouter.TradeOptions)
    (fee : CurrencyAmount) (receiver : string) : Prop := {
  not_both_native :
    isETHER (currency (inputAmount trade))
    && isETHER (currency (outputAmount trade)) = false;
  ttl_positive : Number_gtb (FeeRouter.ttl options) (Number_ofZ 0) = true;
  fee_supplied : FeeRouter.ethFee options = Some fee;
  fee_native : currency fee = ETHER;
  recipient_parsed :
    validateAndParseAddress (FeeRouter.recipient options) = inr receiver
}.

(** The methods of the trade return its slippage-adjusted amounts, the
    maximum input being in the currency of the input. *)
Record computesAmounts (trade : Trade) (options : FeeRouter.TradeOptions)
    (maxIn minOut : CurrencyAmount) : Prop := {
  maximumAmountIn_returns :
    maximumAmountIn trade (FeeRouter.allowedSlippage options) = inr maxIn;
  maximumAmountIn_currency : currency maxIn = currency (inputAmount trade);
  minimumAmountOut_returns :
    minimumAmountOut trade (FeeRouter.allowedSlippage options) = inr minOut
}.

End Validation.

(** ** The other constants *)

(** [JSBI.BigInt(n)] for a whole number is the number itself. *)
Definition MINIMUM_LIQUIDITY : Z := 1000.
Definition ZERO : Z := 0.
Definition ONE : Z := 1.
Definition TWO : Z := 2.
Definition THREE : Z := 3.
Definition FIVE : Z := 5.
Definition TEN : Z := 10.
Definition _100 : Z := 100.
Definition _9975 : Z := 9975.
Definition _10000 : Z := 10000.

Inductive SolidityType : Set := uint8 | uint256.

(** The number a [0x] string of lower-case hexadecimal digits stands for:
    what [JSBI.BigInt] makes of such a literal, and what the reader of a
    call parameter makes of a numeric field. *)
Definition fromHex (s : string) : option Z :=
  match s with
  | String "0" (String "x" EmptyString) => None
  | String "0" (String "x" digits) => option_map Z.of_N (parseDigits digits)
  | _ => None
  end.

(** [SOLIDITY_TYPE_MAXIMA[t]], each written in the source as a hexadecimal
    literal. *)
Definition SOLIDITY_TYPE_MAXIMA (t : SolidityType) : option Z :=
  match t with
  | uint8 => fromHex "0xff"
  | uint256 =>
      fromHex "0xffffffffffffffffffffffffffffffffffffffffffffffffffffffffffffffff"
  end.

(** The width in bits that the name of a Solidity type states. *)
Definition bitsOf (t : SolidityType) : Z :=
  match t with
  | uint8 => 8
  | uint256 => 256
  end.

(** An object literal whose keys are the numeric values of [ChainId]:
    the entries in the order of the source. *)
Definition FACTORY_ADDRESS_entries : list (Z * string) :=
  map (fun c => (ChainId_value c, FACTORY_ADDRESS c)) all_ChainId.

Definition INIT_CODE_HASH_entries : list (Z * string) :=
  map (fun c => (ChainId_value c, INIT_CODE_HASH c)) all_ChainId.

(** [object[key]]: the value of the last entry with that key, or
    [undefined]. *)
Fixpoint property (entries : list (Z * string)) (key : Z) : option string :=
  match entries with
  | [] => None
  | (k, v) :: rest =>
      match property rest key with
      | Some later => Some later
      | None => if k =? key then Some v else None
      end
  end.

(** ** Further vocabulary *)

(** The method names of the second router module, by trade type and
    position of the native asset. *)
Definition tip_methodName (type : TradeType) (position : NativePosition) : string :=
  match type, position with
  | EXACT_INPUT, NativeIn => "swapExactETHForTokensWithTipAmount"
  | EXACT_INPUT, NativeOut => "swapExactTokensForETHAndTipAmount"
  | EXACT_INPUT, TokenToToken => "swapExactTokensForTokensWithTipAmount"
  | EXACT_OUTPUT, NativeIn => "swapETHForExactTokensWithTipAmount"
  | EXACT_OUTPUT, NativeOut => "swapTokensForExactETHAndTipAmount"
  | EXACT_OUTPUT, TokenToToken => "swapTokensForExactTokensWithTipAmount"
  end.

(** The calls to collaborators, in the order the source makes them, short
    of the addition of the tip. *)
Definition collaboratorCalls (recipient : string) (slippage : Percent) : list Call :=
  [CallValidateAndParseAddress recipient;
   CallMaximumAmountIn slippage;
   CallMinimumAmountOut slippage;
   CallGetTime].

Definition tipIsNative (options : TipRouter.TradeOptions) : bool :=
  match TipRouter.ethTip options with
  | Some tip => isETHER (currency tip)
  | None => false
  end.

(** Options that differ from [options] in [feeOnTransfer] alone. *)
Definition withFeeOnTransfer (flag : option bool) (options : FeeRouter.TradeOptions)
  : FeeRouter.TradeOptions :=
  {| FeeRouter.allowedSlippage := FeeRouter.allowedSlippage options;
     FeeRouter.ttl := FeeRouter.ttl options;
     FeeRouter.recipient := FeeRouter.recipient options;
     FeeRouter.feeOnTransfer := flag;
     FeeRouter.ethFee := FeeRouter.ethFee options |}.

Definition tipWithFeeOnTransfer (flag : option bool) (options : TipRouter.TradeOptions)
  : TipRouter.TradeOptions :=
  {| TipRouter.allowedSlippage := TipRouter.allowedSlippage options;
     TipRouter.ttl := TipRouter.ttl options;
     TipRouter.recipient := TipRouter.recipient options;
     TipRouter.feeOnTransfer := flag;
     TipRouter.ethTip := TipRouter.ethTip options |}.

(** The result of the first router for a trade and options that pass
    validation. *)
Definition spec_swapParameters (now : Z) (trade : Trade) (options : FeeRouter.TradeOptions)
    (fee : CurrencyAmount) (receiver : string) (maxIn minOut : CurrencyAmount)
  : SwapParameters :=
  {| methodName := spec_methodName (tradeType trade) (nativePosition trade);
     args :=
       ArgSafeSwapTrade
         (spec_safeSwapTrade now trade (FeeRouter.ttl options) receiver maxIn minOut)
       :: (if isETHER (currency (inputAmount trade))
           then [ArgString (toHex fee)] else []);
     value :=
       if isETHER (currency (inputAmount trade))
       then "0x" ++ toString16 (raw maxIn + raw fee)
       else toHex fee |}.

(** The deadline in [args[0]] of the parameters a call returns. *)
Definition deadlineOf (m : M SwapParameters) : option string :=
  match outcome m with
  | inr r =>
      match args r with
      | ArgSafeSwapTrade t :: _ => Some (deadline t)
      | _ => None
      end
  | inl _ => None
  end.

(** More sample data. *)
Module MoreSamples.

(** A tolerance whose denominator is zero. *)
Definition noPercent : Percent := {| numerator := 1; denominator := 0 |}.

Definition optionsWithNoPercent : FeeRouter.TradeOptions :=
  {| FeeRouter.allowedSlippage := noPercent; FeeRouter.ttl := Number_ofZ 1200;
     FeeRouter.recipient := Sample.account; FeeRouter.feeOnTransfer := None;
     FeeRouter.ethFee := Some (Sample.ether 5) |}.

(** The last millisecond of the second that [Sample.clock] starts. *)
Definition laterClock : Z := Sample.clock + 999.

(** Half a second, [0.5]. *)
Definition halfSecond : number := Finite 1 (-1).

(** Options that pass every check, with a ttl of half a second. *)
Definition optionsWithHalfSecond : FeeRouter.TradeOptions :=
  {| FeeRouter.allowedSlippage := Sample.onePercent; FeeRouter.ttl := halfSecond;
     FeeRouter.recipient := Sample.account; FeeRouter.feeOnTransfer := None;
     FeeRouter.ethFee := Some (Sample.ether 5) |}.

(** Options that pass every check, with a ttl of [Infinity]. *)
Definition optionsWithoutEnd : FeeRouter.TradeOptions :=
  {| FeeRouter.allowedSlippage := Sample.onePercent; FeeRouter.ttl := Infinity false;
     FeeRouter.recipient := Sample.account; FeeRouter.feeOnTransfer := None;
     FeeRouter.ethFee := Some (Sample.ether 5) |}.

(** Options that pass every check, with a ttl of 2^53 seconds. *)
Definition optionsWithLongTtl : FeeRouter.TradeOptions :=
  {| FeeRouter.allowedSlippage := Sample.onePercent; FeeRouter.ttl := Number_ofZ (2 ^ 53);
     FeeRouter.recipient := Sample.account; FeeRouter.feeOnTransfer := None;
     FeeRouter.ethFee := Some (Sample.ether 5) |}.

(** Pairs of doubles to add: whole numbers, halves, the least and the
    greatest double, sums that round, cancel or overflow. *)
Definition additions : list (number * number) :=
  [(Number_ofZ 1619827200, Number_ofZ 1200);
   (Number_ofZ 1619827200, Finite (1200 * 2 ^ 42) (-42));
   (Number_ofZ 1619827200, halfSecond);
   (Number_ofZ 1619827200, Finite 3602879701896397 (-55));
   (Number_ofZ 1619827200, Finite (-3602879701896397) (-55));
   (Number_ofZ 1619827200, Finite 1 (-1074));
   (Number_ofZ 1619827200, Finite (2 ^ 53 - 1) 971);
   (Number_ofZ 1619827200, Number_ofZ (2 ^ 53));
   (Number_ofZ 1, Number_ofZ (2 ^ 53));
   (Number_ofZ 3, Number_ofZ (2 ^ 53));
   (Number_ofZ (2 ^ 53 - 1), halfSecond);
   (Number_ofZ (2 ^ 53 - 2), halfSecond);
   (Number_ofZ (2 ^ 52), Finite 3 (-2));
   (Number_ofZ (2 ^ 52), Finite 1 (-2));
   (Number_ofZ 5, Number_ofZ (-5));
   (Finite 1 (-1074), Finite 1 (-1074));
   (Finite 3 (-1074), Finite (2 ^ 52) (-1073));
   (Finite (2 ^ 53 - 1) 971, Finite 1 970);
   (Finite (2 ^ 53 - 1) 971, Finite 1 969);
   (Finite (2 ^ 53 - 1) 971, Finite (2 ^ 53 - 1) 971);
   (Number_ofZ 1619827200, Infinity false);
   (Infinity false, Infinity true);
   (NaN, Number_ofZ 1)].

End MoreSamples.

(** ** Facts about hexadecimal strings *)

Section HexFacts.

Lemma digits_are_lower_hex (d : uint) :
  forallb_string isLowerHexDigit (NilEmpty.string_of_uint d) = true.
Proof.
  induction d; simpl; try rewrite IHd; reflexivity.
Qed.

(** The digits of a positive number are their own normal form. *)
Lemma to_hex_uint_normal (p : positive) :
  unorm (Pos.to_hex_uint p) = Pos.to_hex_uint p.
Proof.
  rewrite <- HexadecimalPos.Unsigned.to_of, HexadecimalPos.Unsigned.of_to.
  reflexivity.
Qed.

Lemma to_hex_uint_no_leading_zero (p : positive) (d : uint) :
  Pos.to_hex_uint p <> D0 d.
Proof.
  intros Hd.
  pose proof (to_hex_uint_normal p) as Hn.
  rewrite Hd, unorm_D0 in Hn.
  destruct d as [ | | | | | | | | | | | | | | | | ];
    try (match type of Hn with
         | unorm ?u = _ =>
             let Hle := fresh in
             assert (Hle : (nb_digits (unorm u) <= nb_digits u)%nat)
               by (apply nb_digits_unorm; discriminate);
             rewrite Hn in Hle; simpl in Hle; lia
         end).
  apply (HexadecimalPos.Unsigned.to_uint_nonzero p). exact Hd.
Qed.

Lemma minimal_digits_of_positive (p : positive) :
  isMinimalDigits (NilEmpty.string_of_uint (Pos.to_hex_uint p)) = true.
Proof.
  pose proof (to_hex_uint_no_leading_zero p) as Hz.
  pose proof (HexadecimalPos.Unsigned.to_uint_nonnil p) as Hnil.
  destruct (Pos.to_hex_uint p) as [ |d|d|d|d|d|d|d|d|d|d|d|d|d|d|d|d];
    try (exfalso; apply Hnil; reflexivity);
    try (exfalso; apply (Hz d); reflexivity);
    simpl; pose proof (digits_are_lower_hex d) as Hd;
    destruct (NilEmpty.string_of_uint d); try reflexivity; exact Hd.
Qed.

(** A number that is not negative is printed as digits without padding. *)
Lemma toString16_minimal (n : Z) :
  0 <= n -> isMinimalDigits (toString16 n) = true.
Proof.
  destruct n as [ |p|p]; intros Hn.
  - reflexivity.
  - apply minimal_digits_of_positive.
  - lia.
Qed.

Lemma isMinimalHex_0x (digits : string) :
  isMinimalHex ("0x" ++ digits) = isMinimalDigits digits.
Proof. reflexivity. Qed.

Lemma toHex_minimal (a : CurrencyAmount) :
  0 <= raw a -> isMinimalHex (toHex a) = true.
Proof.
  intros Ha. unfold toHex. rewrite isMinimalHex_0x.
  apply toString16_minimal. exact Ha.
Qed.

(** A negative number is not: its string starts with the minus sign. *)
Lemma toString16_negative (n : Z) :
  n < 0 -> isMinimalDigits (toString16 n) = false.
Proof.
  destruct n as [ |p|p]; intros Hn; try lia.
  simpl. destruct (NilEmpty.string_of_uint (Pos.to_hex_uint p)); reflexivity.
Qed.

Lemma parseDigits_toString16 (n : Z) :
  0 <= n -> parseDigits (toString16 n) = Some (Z.to_N n).
Proof.
  destruct n as [ |p|p]; intros Hn; try lia.
  - reflexivity.
  - unfold parseDigits, toString16.
    rewrite NilEmpty.usu. simpl.
    rewrite HexadecimalPos.Unsigned.of_to. reflexivity.
Qed.

Lemma toString16_inj (m n : Z) :
  0 <= m -> 0 <= n -> toString16 m = toString16 n -> m = n.
Proof.
  intros Hm Hn Heq.
  pose proof (parseDigits_toString16 m Hm) as H1.
  pose proof (parseDigits_toString16 n Hn) as H2.
  rewrite Heq in H1. rewrite H1 in H2. injection H2 as H2.
  apply Z2N.inj; assumption.
Qed.

End HexFacts.

(** ** Facts about numbers *)

(** On pairs of doubles of every kind, the sum is the sum that the
    binary64 format of the standard library gives. *)
Lemma Number_add_as_binary64 :
  forallb (fun operands => isDouble (fst operands) && isDouble (snd operands))
    MoreSamples.additions = true
  /\ forallb (fun operands => addsAsBinary64 (fst operands) (snd operands))
       MoreSamples.additions = true.
Proof. split; vm_compute; reflexivity. Qed.

Lemma append_empty_r (s : string) : s ++ "" = s.
Proof. induction s as [ | c s IH]; simpl; [ | rewrite IH ]; reflexivity. Qed.

Lemma Number_gtb_zero_whole (n : number) (z : Z) :
  Number_toZ n = Some z -> Number_gtb n (Number_ofZ 0) = (0 <? z).
Proof.
  destruct n as [ | negative | m e]; try discriminate.
  unfold Number_toZ, Number_gtb, Number_ofZ.
  destruct (Z.leb_spec 0 e) as [He | He].
  - intros [= <-]. rewrite Z.min_r by lia.
    rewrite Z.sub_0_r. cbn [Z.mul].
    assert (0 < 2 ^ e) by (apply Z.pow_pos_nonneg; lia).
    destruct (Z.ltb_spec 0 (m * 2 ^ e)), (Z.ltb_spec 0 (m * 2 ^ e)); try lia; reflexivity.
  - destruct (Z.eqb_spec (m mod 2 ^ (- e)) 0) as [Hmod | ]; [ | discriminate ].
    intros [= <-]. rewrite Z.min_l by lia. rewrite Z.sub_diag. cbn [Z.mul].
    rewrite Z.mul_1_r.
    assert (Hpow : 0 < 2 ^ (- e)) by (apply Z.pow_pos_nonneg; lia).
    pose proof (Z.div_mod m (2 ^ (- e)) ltac:(lia)) as Hdiv.
    rewrite Hmod, Z.add_0_r in Hdiv.
    destruct (Z.ltb_spec 0 m), (Z.ltb_spec 0 (m / 2 ^ (- e))); try reflexivity; nia.
Qed.

Lemma Number_toString16_whole (v u : Z) :
  0 <= v -> u <= 0 -> Number_toString16 (Finite (v * 2 ^ (- u)) u) = toString16 v.
Proof.
  intros Hv Hu. unfold Number_toString16.
  destruct (Z.leb_spec 0 u) as [Hu' | Hu'].
  - assert (u = 0) by lia. subst u. cbn [Z.opp Z.pow]. rewrite !Z.mul_1_r. reflexivity.
  - assert (Hpow : 0 < 2 ^ (- u)) by (apply Z.pow_pos_nonneg; lia).
    rewrite Z.abs_eq by nia.
    rewrite Z.mod_mul, Z.div_mul by lia.
    destruct (Z.ltb_spec (v * 2 ^ (- u)) 0) as [Hneg | _]; [ nia | ].
    cbn [Z.eqb append]. apply append_empty_r.
Qed.

Lemma roundDouble_whole (v k : Z) :
  0 < v < 2 ^ 53 -> 0 <= k ->
  exists u, u <= 0 /\ roundDouble (v * 2 ^ k) (- k) = Finite (v * 2 ^ (- u)) u.
Proof.
  intros [Hpos Hsafe] Hk.
  assert (Hpow : 0 < 2 ^ k) by (apply Z.pow_pos_nonneg; lia).
  assert (Hlog : Z.log2 v < 53) by (apply Z.log2_lt_pow2; lia).
  pose proof (Z.log2_nonneg v) as Hlog0.
  unfold roundDouble.
  destruct (Z.eqb_spec (v * 2 ^ k) 0) as [Hzero | _]; [ nia | ].
  rewrite Z.abs_eq by nia.
  rewrite Z.log2_mul_pow2 by lia.
  set (u := Z.max (k + Z.log2 v + - k - 52) (-1074)).
  assert (Hu : u <= 0) by (unfold u; lia).
  destruct (Z.leb_spec u (- k)) as [Hexact | Hround].
  - destruct (Z.ltb_spec (k + Z.log2 v + - k) 1024) as [_ | Hbig]; [ | lia ].
    exists (- k). split; [ lia | ]. rewrite Z.opp_involutive. reflexivity.
  - exists u. split; [ exact Hu | ].
    assert (Hshift : 0 < u - - k <= k) by lia.
    assert (Hsplit : v * 2 ^ k = v * 2 ^ (- u) * 2 ^ (u - - k)).
    { rewrite <- Z.mul_assoc, <- Z.pow_add_r by lia. f_equal. f_equal. lia. }
    assert (Hpow' : 0 < 2 ^ (u - - k)) by (apply Z.pow_pos_nonneg; lia).
    assert (Hhalf : 0 < 2 ^ (u - - k - 1)) by (apply Z.pow_pos_nonneg; lia).
    assert (Hq : v * 2 ^ k / 2 ^ (u - - k) = v * 2 ^ (- u))
      by (rewrite Hsplit; apply Z.div_mul; lia).
    assert (Hr : (v * 2 ^ k) mod 2 ^ (u - - k) = 0)
      by (rewrite Hsplit; apply Z.mod_mul; lia).
    rewrite Hq, Hr.
    destruct (Z.ltb_spec (2 ^ (u - - k - 1)) 0) as [Hneg | _]; [ lia | ].
    destruct (Z.eqb_spec 0 (2 ^ (u - - k - 1))) as [Heq | _]; [ lia | ].
    cbn [orb andb].
    destruct (Z.ltb_spec 971 u) as [Hover | _]; [ lia | ].
    destruct (Z.eqb_spec u 971) as [Hover | _]; [ lia | ].
    cbn [orb andb].
    rewrite Z.sgn_pos by nia. rewrite Z.mul_1_l. reflexivity.
Qed.

Lemma Number_toString16_sum (s : Z) (n : number) (z : Z) :
  Number_toZ n = Some z ->
  0 < s + z < 2 ^ 53 ->
  Number_toString16 (Number_add (Number_ofZ s) n) = toString16 (s + z).
Proof.
  intros Hz Hsum.
  destruct n as [ | negative | m e]; try discriminate.
  unfold Number_toZ in Hz. unfold Number_add, Number_ofZ.
  assert (Hvalue : exists k, 0 <= k /\ Z.min 0 e = - k
            /\ s * 2 ^ (0 - Z.min 0 e) + m * 2 ^ (e - Z.min 0 e) = (s + z) * 2 ^ k).
  { destruct (Z.leb_spec 0 e) as [He | He].
    - injection Hz as <-. exists 0. rewrite Z.min_l by lia.
      split; [ lia | split; [ reflexivity | ] ].
      rewrite !Z.sub_0_r. cbn [Z.pow]. lia.
    - destruct (Z.eqb_spec (m mod 2 ^ (- e)) 0) as [Hmod | ]; [ | discriminate ].
      injection Hz as <-. exists (- e). rewrite Z.min_r by lia.
      split; [ lia | split; [ lia | ] ].
      rewrite Z.sub_diag, Z.sub_0_l. cbn [Z.pow].
      assert (Hpow : 0 < 2 ^ (- e)) by (apply Z.pow_pos_nonneg; lia).
      pose proof (Z.div_mod m (2 ^ (- e)) ltac:(lia)) as Hdiv.
      rewrite Hmod in Hdiv. nia. }
  destruct Hvalue as (k & Hk & Hmin & Hvalue).
  cbv zeta. rewrite Hvalue, Hmin.
  destruct (roundDouble_whole (s + z) k Hsum Hk) as (u & Hu & Hround).
  rewrite Hround. apply Number_toString16_whole; lia.
Qed.

(** ** The implementations taken from the specification *)

(** The maximum input is an amount of the input currency, as
    [computesAmounts] asks. *)
Lemma spec_maximumAmountIn_currency trade slippageTolerance maxIn :
  spec_maximumAmountIn trade slippageTolerance = inr maxIn ->
  currency maxIn = currency (inputAmount trade).
Proof.
  unfold spec_maximumAmountIn, withRaw.
  destruct (tradeType trade).
  - intros [= <-]. reflexivity.
  - destruct (toInteger _ _ _); [ discriminate | ].
    intros [= <-]. reflexivity.
Qed.

(** Without slippage both bounds are the amounts of the trade. *)
Lemma spec_amounts_without_slippage trade d :
  d <> 0 ->
  spec_maximumAmountIn trade {| numerator := 0; denominator := d |}
  = inr {| currency := currency (inputAmount trade); raw := raw (inputAmount trade) |}
  /\ spec_minimumAmountOut trade {| numerator := 0; denominator := d |}
     = inr {| currency := currency (outputAmount trade); raw := raw (outputAmount trade) |}.
Proof.
  intros Hd.
  unfold spec_maximumAmountIn, spec_minimumAmountOut, withRaw, toInteger.
  cbn [numerator denominator].
  rewrite Z.add_0_r.
  destruct (Z.eqb_spec d 0) as [ | _]; [ contradiction | ].
  rewrite Z.rem_mul by exact Hd.
  rewrite !Z.quot_mul by exact Hd.
  cbn [Z.eqb].
  destruct (tradeType trade), (inputAmount trade), (outputAmount trade);
    split; reflexivity.
Qed.

(** ** The router on inputs that pass validation *)

Section FeeRouterReturns.
Context {E : Entities}.

Lemma swapCallParameters_returns now trade options fee receiver maxIn minOut :
  passesValidation trade options fee receiver ->
  computesAmounts trade options maxIn minOut ->
  outcome (FeeRouter.swapCallParameters now trade options) =
    inr {| methodName := spec_methodName (tradeType trade) (nativePosition trade);
           args :=
             ArgSafeSwapTrade
               (spec_safeSwapTrade now trade (FeeRouter.ttl options) receiver maxIn minOut)
             :: (if isETHER (currency (inputAmount trade))
                 then [ArgString (toHex fee)] else []);
           value :=
             if isETHER (currency (inputAmount trade))
             then "0x" ++ toString16 (raw maxIn + raw fee)
             else toHex fee |}.
Proof.
  intros [Hboth Httl Hfee Hnative Hto] [Hin Hcur Hout].
  unfold FeeRouter.swapCallParameters, nativePosition, spec_safeSwapTrade,
    CurrencyAmount_add.
  rewrite Hboth, Httl, Hfee, Hnative, Hto, Hin, Hout.
  destruct (tradeType trade);
    destruct (currency (inputAmount trade)) eqn:Ein;
    destruct (currency (outputAmount trade)) eqn:Eout;
    try discriminate Hboth; cbn; rewrite ?Hcur, ?Hnative; reflexivity.
Qed.

(** On such inputs the recipient is validated first, then the two amounts
    are computed, then the clock is read; the tip is added to the input
    when the input is the native asset. *)
Lemma swapCallParameters_calls now trade options fee receiver maxIn minOut :
  passesValidation trade options fee receiver ->
  computesAmounts trade options maxIn minOut ->
  calls (FeeRouter.swapCallParameters now trade options) =
    ([CallValidateAndParseAddress (FeeRouter.recipient options);
      CallMaximumAmountIn (FeeRouter.allowedSlippage options);
      CallMinimumAmountOut (FeeRouter.allowedSlippage options);
      CallGetTime]
     ++ (if isETHER (currency (inputAmount trade)) then [CallAdd maxIn fee] else []))%list.
Proof.
  intros [Hboth Httl Hfee Hnative Hto] [Hin Hcur Hout].
  unfold FeeRouter.swapCallParameters, CurrencyAmount_add.
  rewrite Hboth, Httl, Hfee, Hnative, Hto, Hin, Hout.
  destruct (tradeType trade);
    destruct (currency (inputAmount trade)) eqn:Ein;
    destruct (currency (outputAmount trade)) eqn:Eout;
    try discriminate Hboth; cbn; rewrite ?Hcur, ?Hnative; reflexivity.
Qed.

(** The second router returns on the same inputs, after the renaming of
    the tip, with the name of its own table. *)
Lemma second_router_methodName now trade options fee receiver maxIn minOut :
  passesValidation trade options fee receiver ->
  computesAmounts trade options maxIn minOut ->
  exists r,
    outcome (TipRouter.swapCallParameters now trade (renameTip options)) = inr r
    /\ methodName r = tip_methodName (tradeType trade) (nativePosition trade).
Proof.
  intros [Hboth Httl Hfee Hnative Hto] [Hin Hcur Hout].
  unfold TipRouter.swapCallParameters, renameTip, nativePosition, CurrencyAmount_add.
  cbn [TipRouter.ttl TipRouter.ethTip TipRouter.recipient
       TipRouter.allowedSlippage TipRouter.feeOnTransfer].
  rewrite Hboth, Httl, Hfee, Hnative, Hto, Hin, Hout.
  destruct (tradeType trade);
    destruct (currency (inputAmount trade)) eqn:Ein;
    destruct (currency (outputAmount trade)) eqn:Eout;
    try discriminate Hboth; cbn; rewrite ?Hcur, ?Hnative; cbn;
    eexists; split; reflexivity.
Qed.

(** Every value of the options of the second router is the renaming of a
    value of the options of the first. *)
Lemma renameTip_onto (tipOptions : TipRouter.TradeOptions) :
  exists options, renameTip options = tipOptions.
Proof.
  destruct tipOptions as [slippage seconds receiver flag tip].
  exists {| FeeRouter.allowedSlippage := slippage; FeeRouter.ttl := seconds;
            FeeRouter.recipient := receiver; FeeRouter.feeOnTransfer := flag;
            FeeRouter.ethFee := tip |}.
  reflexivity.
Qed.

(** C1, amended.  For every trade and options that pass validation, each
    router returns, and the method name it returns is a function of the
    trade type and the position of the native asset alone: for the router
    of [src/src/router.ts] the entry of the six-name table of the
    specification, for the second router module the entry of its own
    table of six [...TipAmount] names. *)
Theorem methodName_by_type_and_position now trade options fee receiver maxIn minOut :
  passesValidation trade options fee receiver ->
  computesAmounts trade options maxIn minOut ->
  (exists r,
     outcome (FeeRouter.swapCallParameters now trade options) = inr r
     /\ methodName r = spec_methodName (tradeType trade) (nativePosition trade))
  /\ (exists r,
        outcome (TipRouter.swapCallParameters now trade (renameTip options)) = inr r
        /\ methodName r = tip_methodName (tradeType trade) (nativePosition trade)).
Proof.
  intros Hvalid Hamounts. split.
  - eexists. split.
    + apply (swapCallParameters_returns now _ _ _ _ _ _ Hvalid Hamounts).
    + reflexivity.
  - apply (second_router_methodName now _ _ _ _ _ _ Hvalid Hamounts).
Qed.

(** C2.  For every trade and options that pass validation: when the input
    currency is the native asset, [value] is the hex encoding of the
    maximum input amount plus the tip; otherwise it is the hex encoding
    of the tip, which is [0x0] when the tip is zero. *)
Theorem value_is_input_plus_tip_or_tip now trade options fee receiver maxIn minOut :
  passesValidation trade options fee receiver ->
  computesAmounts trade options maxIn minOut ->
  exists r,
    outcome (FeeRouter.swapCallParameters now trade options) = inr r
    /\ (currency (inputAmount trade) = ETHER ->
        value r = "0x" ++ toString16 (raw maxIn + raw fee))
    /\ (currency (inputAmount trade) <> ETHER ->
        value r = "0x" ++ toString16 (raw fee)
        /\ (raw fee = 0 -> value r = ZERO_HEX)).
Proof.
  intros Hvalid Hamounts.
  eexists. split; [ | split ].
  - apply (swapCallParameters_returns now _ _ _ _ _ _ Hvalid Hamounts).
  - intros Hin. cbn [value]. rewrite Hin. reflexivity.
  - intros Hin. cbn [value].
    destruct (currency (inputAmount trade)); [ congruence | ].
    cbn [isETHER]. split; [ reflexivity | ].
    intros Hzero. unfold toHex. rewrite Hzero. reflexivity.
Qed.

(** C5.  A one-hop EXACT_INPUT trade from the native asset to a token,
    with ttl 1200, any fixed clock and a tip of zero, gives the method
    name [swapExactETHForTokensWithFeeAmount], a path of length 2 in
    [args[0]] and as [value] the hex encoding of the maximum input
    amount. *)
Theorem one_hop_exact_input_native_in now trade options receiver maxIn minOut token :
  tradeType trade = EXACT_INPUT ->
  currency (inputAmount trade) = ETHER ->
  currency (outputAmount trade) = TokenCurrency token ->
  List.length (path (route trade)) = 2%nat ->
  Number_toZ (FeeRouter.ttl options) = Some 1200 ->
  FeeRouter.ethFee options = Some {| currency := ETHER; raw := 0 |} ->
  validateAndParseAddress (FeeRouter.recipient options) = inr receiver ->
  computesAmounts trade options maxIn minOut ->
  exists r t,
    outcome (FeeRouter.swapCallParameters now trade options) = inr r
    /\ methodName r = "swapExactETHForTokensWithFeeAmount"
    /\ nth_error (args r) 0 = Some (ArgSafeSwapTrade t)
    /\ List.length (swapPath t) = 2%nat
    /\ value r = toHex maxIn.
Proof.
  intros Htype Hin Hout Hpath Httl Hfee Hto Hamounts.
  assert (Hvalid : passesValidation trade options
                     {| currency := ETHER; raw := 0 |} receiver).
  { constructor; try assumption; try reflexivity.
    - rewrite Hin, Hout. reflexivity.
    - rewrite (Number_gtb_zero_whole _ _ Httl). reflexivity. }
  eexists.
  exists (spec_safeSwapTrade now trade (FeeRouter.ttl options) receiver maxIn minOut).
  split; [ | split; [ | split; [ | split ] ] ].
  - apply (swapCallParameters_returns now _ _ _ _ _ _ Hvalid Hamounts).
  - cbn [methodName]. unfold nativePosition. rewrite Htype, Hin. reflexivity.
  - reflexivity.
  - unfold spec_safeSwapTrade. cbn [swapPath]. rewrite length_map. exact Hpath.
  - cbn [value]. rewrite Hin. cbn [isETHER raw]. rewrite Z.add_0_r. reflexivity.
Qed.

(** X14.  For every trade and options that pass validation and whose ttl
    is a whole number of seconds, with a deadline below 2^53, amounts that
    are not negative and a clock that is not before the epoch, every
    numeric field of the result ([amountIn], [amountOut] and [deadline] of
    [args[0]], the tip argument when there is one, and [value]) is [0x]
    followed by lower-case hexadecimal digits without padding. *)
Theorem numeric_fields_minimal_hex now trade options fee receiver maxIn minOut seconds :
  passesValidation trade options fee receiver ->
  computesAmounts trade options maxIn minOut ->
  Number_toZ (FeeRouter.ttl options) = Some seconds ->
  now / 1000 + seconds < 2 ^ 53 ->
  0 <= now -> 0 <= raw maxIn -> 0 <= raw minOut -> 0 <= raw fee ->
  exists r t,
    outcome (FeeRouter.swapCallParameters now trade options) = inr r
    /\ nth_error (args r) 0 = Some (ArgSafeSwapTrade t)
    /\ isMinimalHex (amountIn t) = true
    /\ isMinimalHex (amountOut t) = true
    /\ isMinimalHex (deadline t) = true
    /\ (forall s, In (ArgString s) (args r) -> isMinimalHex s = true)
    /\ isMinimalHex (value r) = true.
Proof.
  intros Hvalid Hamounts Hwhole Hsafe Hnow HmaxIn HminOut Hfee.
  pose proof (ttl_positive _ _ _ _ Hvalid) as Httl.
  rewrite (Number_gtb_zero_whole _ _ Hwhole) in Httl. apply Z.ltb_lt in Httl.
  pose proof (Z.div_pos now 1000 Hnow ltac:(lia)) as Hseconds.
  eexists.
  exists (spec_safeSwapTrade now trade (FeeRouter.ttl options) receiver maxIn minOut).
  split; [ | split; [ | split; [ | split; [ | split; [ | split ] ] ] ] ].
  - apply (swapCallParameters_returns now _ _ _ _ _ _ Hvalid Hamounts).
  - reflexivity.
  - apply toHex_minimal. exact HmaxIn.
  - apply toHex_minimal. exact HminOut.
  - cbn [deadline spec_safeSwapTrade]. rewrite isMinimalHex_0x.
    rewrite (Number_toString16_sum _ _ _ Hwhole) by lia.
    apply toString16_minimal. lia.
  - intros s Hs. cbn [args] in Hs.
    destruct (isETHER (currency (inputAmount trade))).
    + destruct Hs as [Hs | [Hs | [] ] ]; [ discriminate Hs | ].
      injection Hs as <-. apply toHex_minimal. exact Hfee.
    + destruct Hs as [Hs | [] ]. discriminate Hs.
  - cbn [value]. destruct (isETHER (currency (inputAmount trade))).
    + rewrite isMinimalHex_0x. apply toString16_minimal. lia.
    + apply toHex_minimal. exact Hfee.
Qed.

(** C10.  For every trade and options that pass validation, [args[0]] is
    the record [{amountIn, amountOut, path, to, deadline}]; the hex
    string of the tip follows it exactly when the input currency is the
    native asset, and [args] has no other element. *)
Theorem args_are_record_then_tip_if_native_in now trade options fee receiver maxIn minOut :
  passesValidation trade options fee receiver ->
  computesAmounts trade options maxIn minOut ->
  exists r,
    outcome (FeeRouter.swapCallParameters now trade options) = inr r
    /\ let record :=
         ArgSafeSwapTrade
           (spec_safeSwapTrade now trade (FeeRouter.ttl options) receiver maxIn minOut) in
       (currency (inputAmount trade) = ETHER ->
        args r = [record; ArgString (toHex fee)])
       /\ (currency (inputAmount trade) <> ETHER -> args r = [record]).
Proof.
  intros Hvalid Hamounts.
  eexists. split; [ | split ].
  - apply (swapCallParameters_returns now _ _ _ _ _ _ Hvalid Hamounts).
  - intros Hin. cbn [args]. rewrite Hin. reflexivity.
  - intros Hin. cbn [args].
    destruct (currency (inputAmount trade)); [ congruence | reflexivity ].
Qed.

End FeeRouterReturns.

(** ** The router on inputs that fail a check *)

Section FeeRouterThrows.
Context {E : Entities}.

Lemma both_native_throws now trade options :
  bothNative trade = true ->
  FeeRouter.swapCallParameters now trade options
  = ([], inl (InvariantFailed (Some "ETHER_IN_OUT"))).
Proof.
  unfold bothNative, FeeRouter.swapCallParameters. intros ->. reflexivity.
Qed.

Lemma ttl_not_positive_throws now trade options :
  bothNative trade = false ->
  Number_gtb (FeeRouter.ttl options) (Number_ofZ 0) = false ->
  FeeRouter.swapCallParameters now trade options
  = ([], inl (InvariantFailed (Some "TTL"))).
Proof.
  unfold bothNative, FeeRouter.swapCallParameters. intros -> Httl.
  rewrite Httl. reflexivity.
Qed.

Lemma fee_check_throws now trade options :
  bothNative trade = false ->
  Number_gtb (FeeRouter.ttl options) (Number_ofZ 0) = true ->
  feeIsNative options = false ->
  FeeRouter.swapCallParameters now trade options = ([], inl (InvariantFailed None)).
Proof.
  unfold bothNative, feeIsNative, FeeRouter.swapCallParameters. intros -> Httl Hfee.
  rewrite Httl, Hfee. reflexivity.
Qed.

Lemma recipient_rejected_throws now trade options e :
  bothNative trade = false ->
  Number_gtb (FeeRouter.ttl options) (Number_ofZ 0) = true ->
  feeIsNative options = true ->
  validateAndParseAddress (FeeRouter.recipient options) = inl e ->
  FeeRouter.swapCallParameters now trade options
  = ([CallValidateAndParseAddress (FeeRouter.recipient options)], inl e).
Proof.
  unfold bothNative, feeIsNative, FeeRouter.swapCallParameters. intros -> Httl Hfee Hto.
  rewrite Httl, Hfee, Hto. reflexivity.
Qed.

(** An amount is computed only after the four checks have passed. *)
Lemma checks_precede_amounts now trade options :
  computesNoAmount (FeeRouter.swapCallParameters now trade options) = false ->
  exists fee receiver, passesValidation trade options fee receiver.
Proof.
  intros Hcalls.
  destruct (bothNative trade) eqn:Hboth.
  { rewrite (both_native_throws now trade options Hboth) in Hcalls. discriminate. }
  destruct (Number_gtb (FeeRouter.ttl options) (Number_ofZ 0)) eqn:Httl.
  2: { rewrite (ttl_not_positive_throws now trade options Hboth Httl) in Hcalls.
       discriminate. }
  destruct (feeIsNative options) eqn:Hfee.
  2: { rewrite (fee_check_throws now trade options Hboth Httl Hfee) in Hcalls.
       discriminate. }
  destruct (validateAndParseAddress (FeeRouter.recipient options)) as [e | receiver] eqn:Hto.
  { rewrite (recipient_rejected_throws now trade options e Hboth Httl Hfee Hto) in Hcalls.
    discriminate. }
  unfold feeIsNative in Hfee.
  destruct (FeeRouter.ethFee options) as [fee | ] eqn:Hsome; [ | discriminate ].
  exists fee, receiver. constructor; try assumption.
  destruct (currency fee); [ reflexivity | discriminate ].
Qed.

(** With a ttl of zero the call throws [ETHER_IN_OUT] or [TTL] and makes
    no call at all. *)
Lemma ttl_zero_throws_named now trade options :
  FeeRouter.ttl options = Number_ofZ 0 ->
  let m := FeeRouter.swapCallParameters now trade options in
  calls m = []
  /\ outcome m
     = inl (InvariantFailed
              (Some (if bothNative trade then "ETHER_IN_OUT" else "TTL"))).
Proof.
  intros Httl. cbv zeta.
  destruct (bothNative trade) eqn:Hboth.
  - rewrite (both_native_throws now trade options Hboth). split; reflexivity.
  - rewrite (ttl_not_positive_throws now trade options Hboth);
      [ split; reflexivity | rewrite Httl; reflexivity ].
Qed.

(** With a recipient the validator rejects the call throws, returns no
    parameters, and computes no amount. *)
Lemma recipient_rejected_throws_early now trade options e :
  validateAndParseAddress (FeeRouter.recipient options) = inl e ->
  let m := FeeRouter.swapCallParameters now trade options in
  throws m = true /\ computesNoAmount m = true.
Proof.
  intros Hto. cbv zeta.
  destruct (computesNoAmount (FeeRouter.swapCallParameters now trade options)) eqn:Hcalls.
  - split; [ | reflexivity ].
    destruct (bothNative trade) eqn:Hboth.
    { rewrite (both_native_throws now trade options Hboth). reflexivity. }
    destruct (Number_gtb (FeeRouter.ttl options) (Number_ofZ 0)) eqn:Httl.
    2: { rewrite (ttl_not_positive_throws now trade options Hboth Httl). reflexivity. }
    destruct (feeIsNative options) eqn:Hfee.
    2: { rewrite (fee_check_throws now trade options Hboth Httl Hfee). reflexivity. }
    rewrite (recipient_rejected_throws now trade options e Hboth Httl Hfee Hto).
    reflexivity.
  - destruct (checks_precede_amounts now trade options Hcalls) as (fee & receiver & Hvalid).
    pose proof (recipient_parsed _ _ _ _ Hvalid) as Hparsed.
    rewrite Hto in Hparsed. discriminate.
Qed.

End FeeRouterThrows.

(** ** The tip *)

Section Tip.
Context {E : Entities}.

(** C4, amended.  The tip is required: when the other checks pass and the
    trade's methods return its amounts, [swapCallParameters] returns
    exactly when a tip is supplied and its currency is the native
    asset. *)
Theorem returns_iff_native_tip_supplied now trade options receiver maxIn minOut :
  bothNative trade = false ->
  Number_gtb (FeeRouter.ttl options) (Number_ofZ 0) = true ->
  validateAndParseAddress (FeeRouter.recipient options) = inr receiver ->
  computesAmounts trade options maxIn minOut ->
  (exists r, outcome (FeeRouter.swapCallParameters now trade options) = inr r)
  <-> (exists fee, FeeRouter.ethFee options = Some fee /\ currency fee = ETHER).
Proof.
  intros Hboth Httl Hto Hamounts. split.
  - intros [r Hr].
    destruct (feeIsNative options) eqn:Hfee.
    + unfold feeIsNative in Hfee.
      destruct (FeeRouter.ethFee options) as [fee | ]; [ | discriminate ].
      exists fee. split; [ reflexivity | ].
      destruct (currency fee); [ reflexivity | discriminate ].
    + rewrite (fee_check_throws now trade options Hboth Httl Hfee) in Hr.
      discriminate.
  - intros (fee & Hfee & Hnative).
    eexists.
    apply (swapCallParameters_returns now trade options fee receiver maxIn minOut);
      [ constructor | ]; assumption.
Qed.

End Tip.

(** C4, as stated, fails: a token-to-token trade and options with a
    positive ttl and a valid recipient but no tip pass every other check,
    and both routers throw. *)
Lemma missing_tip_rejected :
  bothNative (Sample.tokenToToken EXACT_INPUT) = false
  /\ Number_gtb (FeeRouter.ttl Sample.optionsWithoutFee) (Number_ofZ 0) = true
  /\ spec_validateAndParseAddress (FeeRouter.recipient Sample.optionsWithoutFee)
     = inr Sample.account
  /\ FeeRouter.ethFee Sample.optionsWithoutFee = None
  /\ FeeRouter.swapCallParameters (E := specEntities) Sample.clock
       (Sample.tokenToToken EXACT_INPUT) Sample.optionsWithoutFee
     = ([], inl (InvariantFailed None))
  /\ TipRouter.swapCallParameters (E := specEntities) Sample.clock
       (Sample.tokenToToken EXACT_INPUT) (renameTip Sample.optionsWithoutFee)
     = ([], inl (InvariantFailed None)).
Proof. repeat split. Qed.

(** ** Errors without a reason *)

(** C8.  The check of the tip throws an error that carries no reason: with
    a tip in a token, and every other check passing, both routers throw the
    bare invariant failure, before any call. *)
Theorem tip_check_failure_has_no_reason :
  FeeRouter.swapCallParameters (E := specEntities) Sample.clock
    (Sample.tokenToToken EXACT_INPUT) Sample.optionsWithTokenFee
  = ([], inl (InvariantFailed None))
  /\ TipRouter.swapCallParameters (E := specEntities) Sample.clock
       (Sample.tokenToToken EXACT_INPUT) (renameTip Sample.optionsWithTokenFee)
     = ([], inl (InvariantFailed None))
  /\ isNamed (InvariantFailed None) = false.
Proof. repeat split. Qed.

(** C3.  With a recipient that is not an address and no tip, the call
    throws before any amount is computed and returns nothing, but the error
    is the bare invariant failure of the tip check, which carries no
    name. *)
Theorem bad_recipient_without_tip_throws_unnamed :
  spec_validateAndParseAddress (FeeRouter.recipient Sample.optionsWithBadRecipient)
  = inl (InvariantFailed (Some "0xinvalid is not a valid address."))
  /\ calls (FeeRouter.swapCallParameters (E := specEntities) Sample.clock
              (Sample.etherToToken EXACT_INPUT) Sample.optionsWithBadRecipient) = []
  /\ outcome (FeeRouter.swapCallParameters (E := specEntities) Sample.clock
                (Sample.etherToToken EXACT_INPUT) Sample.optionsWithBadRecipient)
     = inl (InvariantFailed None)
  /\ isNamed (InvariantFailed None) = false.
Proof. repeat split. Qed.

(** ** The two routers compared *)

Section TwoRouters.
Context {E : Entities}.

(** C6, amended.  On the same trade and on options that differ only in
    the name of the tip field, the two routers make the same calls and
    throw the same error, or both return, with the same [args] and the
    same [value]; the method names are the same for an exact-input trade
    with native output and differ for the five other variants. *)
Theorem routers_agree_except_methodName now trade options :
  let fee := FeeRouter.swapCallParameters now trade options in
  let tip := TipRouter.swapCallParameters now trade (renameTip options) in
  calls fee = calls tip
  /\ match outcome fee, outcome tip with
     | inl e1, inl e2 => e1 = e2
     | inr r1, inr r2 =>
         args r1 = args r2
         /\ value r1 = value r2
         /\ (methodName r1 = methodName r2
             <-> tradeType trade = EXACT_INPUT /\ nativePosition trade = NativeOut)
     | _, _ => False
     end.
Proof.
  unfold FeeRouter.swapCallParameters, TipRouter.swapCallParameters, renameTip,
    nativePosition, CurrencyAmount_add.
  cbn [TipRouter.ttl TipRouter.ethTip TipRouter.recipient
       TipRouter.allowedSlippage TipRouter.feeOnTransfer].
  destruct (currency (inputAmount trade)) as [ | tokenIn];
    destruct (currency (outputAmount trade)) as [ | tokenOut];
    cbn [isETHER andb negb invariant]; try (split; reflexivity);
    (destruct (Number_gtb (FeeRouter.ttl options) (Number_ofZ 0));
       [ | split; reflexivity ]);
    (destruct (FeeRouter.ethFee options) as [amount | ]; [ | split; reflexivity ]);
    (destruct (currency amount) eqn:Hamount; [ | split; reflexivity ]);
    (destruct (validateAndParseAddress (FeeRouter.recipient options));
       [ split; reflexivity | ]);
    (destruct (maximumAmountIn trade (FeeRouter.allowedSlippage options)) as [ | maxIn];
       [ split; reflexivity | ]);
    (destruct (minimumAmountOut trade (FeeRouter.allowedSlippage options));
       [ split; reflexivity | ]);
    destruct (tradeType trade); cbn;
    try destruct (currencyEquals (currency maxIn) (currency amount));
    cbn; (split; [ reflexivity | ]); try reflexivity;
    (split; [ reflexivity | split; [ reflexivity | ] ]);
    (split; [ intros Hname | intros [Htype Hposition] ]);
    try discriminate; auto.
Qed.

End TwoRouters.

(** C6, as stated, fails: for an exact-input trade with native input and
    the same tip, the two routers return different method names. *)
Lemma routers_differ_on_methodName :
  match
    outcome (FeeRouter.swapCallParameters (E := specEntities) Sample.clock
               (Sample.etherToToken EXACT_INPUT) (Sample.options (Sample.ether 0))),
    outcome (TipRouter.swapCallParameters (E := specEntities) Sample.clock
               (Sample.etherToToken EXACT_INPUT)
               (renameTip (Sample.options (Sample.ether 0))))
  with
  | inr r1, inr r2 =>
      methodName r1 = "swapExactETHForTokensWithFeeAmount"
      /\ methodName r2 = "swapExactETHForTokensWithTipAmount"
      /\ methodName r1 <> methodName r2
  | _, _ => False
  end.
Proof. cbn. repeat split. discriminate. Qed.

(** ** The constant tables *)

(** C9, amended.  For MAINNET, ROPSTEN, BSC_MAINNET and BSC_TESTNET the
    tables hold a factory address of 20 bytes in hexadecimal, which the
    address validator of the specification accepts, and an init-code hash
    of 32 bytes in hexadecimal; for RINKEBY, GÖRLI and KOVAN both entries
    are the empty string. *)
Theorem tables_filled_where_deployed (c : ChainId) :
  if hasDeployment c
  then isHexOfLength 40 (FACTORY_ADDRESS c) = true
       /\ spec_validateAndParseAddress (FACTORY_ADDRESS c) = inr (FACTORY_ADDRESS c)
       /\ isHexOfLength 64 (INIT_CODE_HASH c) = true
  else FACTORY_ADDRESS c = "" /\ INIT_CODE_HASH c = "".
Proof. destruct c; cbn [hasDeployment]; repeat split. Qed.

(** C9, as stated, fails: the entries for RINKEBY are empty, and the
    address validator rejects the empty string. *)
Lemma tables_empty_for_rinkeby :
  In RINKEBY all_ChainId
  /\ FACTORY_ADDRESS RINKEBY = ""
  /\ isHexOfLength 40 (FACTORY_ADDRESS RINKEBY) = false
  /\ spec_validateAndParseAddress (FACTORY_ADDRESS RINKEBY)
     = inl (InvariantFailed (Some " is not a valid address."))
  /\ INIT_CODE_HASH RINKEBY = "".
Proof. repeat split. cbn. auto. Qed.

(** ** The names of the second router *)

(** C1, as stated, fails for the second of the two routers it is about:
    on an exact-output trade from the native asset, which passes
    validation, the second router returns
    [swapETHForExactTokensWithTipAmount], none of the six names listed. *)
Lemma second_router_name_not_listed :
  passesValidation (E := specEntities) (Sample.etherToToken EXACT_OUTPUT)
    (Sample.options (Sample.ether 5)) (Sample.ether 5) Sample.account
  /\ match
       outcome (TipRouter.swapCallParameters (E := specEntities) Sample.clock
                  (Sample.etherToToken EXACT_OUTPUT)
                  (renameTip (Sample.options (Sample.ether 5))))
     with
     | inr r =>
         methodName r = "swapETHForExactTokensWithTipAmount"
         /\ methodName r <> "swapExactETHForTokensWithFeeAmount"
         /\ methodName r <> "swapExactTokensForETHAndTipAmount"
         /\ methodName r <> "swapExactTokensForTokensWithFeeAmount"
         /\ methodName r <> "swapETHForExactTokensWithFeeAmount"
         /\ methodName r <> "swapTokensForExactETHAndFeeAmount"
         /\ methodName r <> "swapTokensForExactTokensWithFeeAmount"
     | inl _ => False
     end.
Proof.
  split; [ constructor; reflexivity | ].
  cbn. repeat split; discriminate.
Qed.

(** ** A ttl that is not a whole number *)

(** C7.  With a ttl of half a second, or of [Infinity], the options pass
    every check and the call returns, but the deadline in [args[0]] is not
    a hexadecimal string: it is [0x608c9a00.8], the whole seconds of the
    clock and a fraction, or [0xInfinity]. *)
Theorem fractional_ttl_gives_fractional_deadline :
  isDouble MoreSamples.halfSecond = true
  /\ passesValidation (E := specEntities) (Sample.tokenToToken EXACT_INPUT)
       MoreSamples.optionsWithHalfSecond (Sample.ether 5) Sample.account
  /\ deadlineOf (FeeRouter.swapCallParameters (E := specEntities) Sample.clock
                   (Sample.tokenToToken EXACT_INPUT) MoreSamples.optionsWithHalfSecond)
     = Some "0x608c9a00.8"
  /\ deadlineOf (TipRouter.swapCallParameters (E := specEntities) Sample.clock
                   (Sample.tokenToToken EXACT_INPUT)
                   (renameTip MoreSamples.optionsWithHalfSecond))
     = Some "0x608c9a00.8"
  /\ isMinimalHex "0x608c9a00.8" = false
  /\ passesValidation (E := specEntities) (Sample.tokenToToken EXACT_INPUT)
       MoreSamples.optionsWithoutEnd (Sample.ether 5) Sample.account
  /\ deadlineOf (FeeRouter.swapCallParameters (E := specEntities) Sample.clock
                   (Sample.tokenToToken EXACT_INPUT) MoreSamples.optionsWithoutEnd)
     = Some "0xInfinity"
  /\ isMinimalHex "0xInfinity" = false.
Proof.
  repeat split.
Qed.

(** ** The theorems at sample inputs *)

(** An exact-output trade from the native asset with a tip of 5: at one
    percent of slippage the maximum input is 101. *)
Lemma methodName_by_type_and_position_witness :
  passesValidation (E := specEntities) (Sample.etherToToken EXACT_OUTPUT)
    (Sample.options (Sample.ether 5)) (Sample.ether 5) Sample.account
  /\ computesAmounts (E := specEntities) (Sample.etherToToken EXACT_OUTPUT)
       (Sample.options (Sample.ether 5)) (Sample.ether 101) (Sample.tokens Sample.token0 69)
  /\ (exists r,
        outcome (FeeRouter.swapCallParameters (E := specEntities) Sample.clock
                   (Sample.etherToToken EXACT_OUTPUT) (Sample.options (Sample.ether 5)))
        = inr r
        /\ methodName r = "swapETHForExactTokensWithFeeAmount")
  /\ (exists r,
        outcome (TipRouter.swapCallParameters (E := specEntities) Sample.clock
                   (Sample.etherToToken EXACT_OUTPUT)
                   (renameTip (Sample.options (Sample.ether 5))))
        = inr r
        /\ methodName r = "swapETHForExactTokensWithTipAmount").
Proof.
  assert (Hvalid : passesValidation (E := specEntities) (Sample.etherToToken EXACT_OUTPUT)
                     (Sample.options (Sample.ether 5)) (Sample.ether 5) Sample.account)
    by (constructor; reflexivity).
  assert (Hamounts : computesAmounts (E := specEntities) (Sample.etherToToken EXACT_OUTPUT)
                       (Sample.options (Sample.ether 5)) (Sample.ether 101)
                       (Sample.tokens Sample.token0 69))
    by (constructor; reflexivity).
  split; [ exact Hvalid | split; [ exact Hamounts | ] ].
  exact (methodName_by_type_and_position (E := specEntities) Sample.clock _ _ _ _ _ _
           Hvalid Hamounts).
Defined.

(** The same trade: the value is 101 + 5 = 0x6a. *)
Lemma value_is_input_plus_tip_or_tip_witness :
  passesValidation (E := specEntities) (Sample.etherToToken EXACT_OUTPUT)
    (Sample.options (Sample.ether 5)) (Sample.ether 5) Sample.account
  /\ computesAmounts (E := specEntities) (Sample.etherToToken EXACT_OUTPUT)
       (Sample.options (Sample.ether 5)) (Sample.ether 101) (Sample.tokens Sample.token0 69)
  /\ exists r,
       outcome (FeeRouter.swapCallParameters (E := specEntities) Sample.clock
                  (Sample.etherToToken EXACT_OUTPUT) (Sample.options (Sample.ether 5)))
       = inr r
       /\ (ETHER = ETHER -> value r = "0x6a")
       /\ (ETHER <> ETHER -> value r = "0x5" /\ (5 = 0 -> value r = ZERO_HEX)).
Proof.
  assert (Hvalid : passesValidation (E := specEntities) (Sample.etherToToken EXACT_OUTPUT)
                     (Sample.options (Sample.ether 5)) (Sample.ether 5) Sample.account)
    by (constructor; reflexivity).
  assert (Hamounts : computesAmounts (E := specEntities) (Sample.etherToToken EXACT_OUTPUT)
                       (Sample.options (Sample.ether 5)) (Sample.ether 101)
                       (Sample.tokens Sample.token0 69))
    by (constructor; reflexivity).
  split; [ exact Hvalid | split; [ exact Hamounts | ] ].
  exact (value_is_input_plus_tip_or_tip (E := specEntities) Sample.clock _ _ _ _ _ _
           Hvalid Hamounts).
Defined.

(** The sample of the specification: native asset in, [token0] out, ttl
    1200, no tip to speak of. *)
Lemma one_hop_exact_input_native_in_witness :
  computesAmounts (E := specEntities) (Sample.etherToToken EXACT_INPUT)
    (Sample.options (Sample.ether 0)) (Sample.ether 100) (Sample.tokens Sample.token0 68)
  /\ exists r t,
       outcome (FeeRouter.swapCallParameters (E := specEntities) Sample.clock
                  (Sample.etherToToken EXACT_INPUT) (Sample.options (Sample.ether 0)))
       = inr r
       /\ methodName r = "swapExactETHForTokensWithFeeAmount"
       /\ nth_error (args r) 0 = Some (ArgSafeSwapTrade t)
       /\ List.length (swapPath t) = 2%nat
       /\ value r = "0x64".
Proof.
  assert (Hamounts : computesAmounts (E := specEntities) (Sample.etherToToken EXACT_INPUT)
                       (Sample.options (Sample.ether 0)) (Sample.ether 100)
                       (Sample.tokens Sample.token0 68))
    by (constructor; reflexivity).
  split; [ exact Hamounts | ].
  exact (one_hop_exact_input_native_in (E := specEntities) Sample.clock
           (Sample.etherToToken EXACT_INPUT) (Sample.options (Sample.ether 0))
           Sample.account (Sample.ether 100) (Sample.tokens Sample.token0 68) Sample.token0
           eq_refl eq_refl eq_refl eq_refl eq_refl eq_refl eq_refl Hamounts).
Defined.

(** A token-to-token trade with a tip of 5 and a ttl of 1200 seconds. *)
Lemma numeric_fields_minimal_hex_witness :
  passesValidation (E := specEntities) (Sample.tokenToToken EXACT_INPUT)
    (Sample.options (Sample.ether 5)) (Sample.ether 5) Sample.account
  /\ computesAmounts (E := specEntities) (Sample.tokenToToken EXACT_INPUT)
       (Sample.options (Sample.ether 5)) (Sample.tokens Sample.token0 100)
       (Sample.tokens Sample.token1 68)
  /\ Number_toZ (FeeRouter.ttl (Sample.options (Sample.ether 5))) = Some 1200
  /\ Sample.clock / 1000 + 1200 < 2 ^ 53
  /\ exists r t,
       outcome (FeeRouter.swapCallParameters (E := specEntities) Sample.clock
                  (Sample.tokenToToken EXACT_INPUT) (Sample.options (Sample.ether 5)))
       = inr r
       /\ nth_error (args r) 0 = Some (ArgSafeSwapTrade t)
       /\ isMinimalHex (amountIn t) = true
       /\ isMinimalHex (amountOut t) = true
       /\ isMinimalHex (deadline t) = true
       /\ (forall s, In (ArgString s) (args r) -> isMinimalHex s = true)
       /\ isMinimalHex (value r) = true.
Proof.
  assert (Hvalid : passesValidation (E := specEntities) (Sample.tokenToToken EXACT_INPUT)
                     (Sample.options (Sample.ether 5)) (Sample.ether 5) Sample.account)
    by (constructor; reflexivity).
  assert (Hamounts : computesAmounts (E := specEntities) (Sample.tokenToToken EXACT_INPUT)
                       (Sample.options (Sample.ether 5)) (Sample.tokens Sample.token0 100)
                       (Sample.tokens Sample.token1 68))
    by (constructor; reflexivity).
  split; [ exact Hvalid | split; [ exact Hamounts | ] ].
  split; [ reflexivity | split; [ reflexivity | ] ].
  apply (numeric_fields_minimal_hex (E := specEntities) Sample.clock _ _ _ _ _ _ 1200
           Hvalid Hamounts eq_refl);
    vm_compute; first [ reflexivity | discriminate ].
Defined.

(** An exact-input trade from a token to the native asset with a tip of
    5: the record alone. *)
Lemma args_are_record_then_tip_if_native_in_witness :
  passesValidation (E := specEntities) (Sample.tokenToEther EXACT_INPUT)
    (Sample.options (Sample.ether 5)) (Sample.ether 5) Sample.account
  /\ computesAmounts (E := specEntities) (Sample.tokenToEther EXACT_INPUT)
       (Sample.options (Sample.ether 5)) (Sample.tokens Sample.token0 100) (Sample.ether 68)
  /\ exists r,
       outcome (FeeRouter.swapCallParameters (E := specEntities) Sample.clock
                  (Sample.tokenToEther EXACT_INPUT) (Sample.options (Sample.ether 5)))
       = inr r
       /\ (TokenCurrency Sample.token0 = ETHER ->
           args r
           = [ArgSafeSwapTrade
                (spec_safeSwapTrade Sample.clock (Sample.tokenToEther EXACT_INPUT)
                   (Number_ofZ 1200)
                   Sample.account (Sample.tokens Sample.token0 100) (Sample.ether 68));
              ArgString "0x5"])
       /\ (TokenCurrency Sample.token0 <> ETHER ->
           args r
           = [ArgSafeSwapTrade
                (spec_safeSwapTrade Sample.clock (Sample.tokenToEther EXACT_INPUT)
                   (Number_ofZ 1200)
                   Sample.account (Sample.tokens Sample.token0 100) (Sample.ether 68))]).
Proof.
  assert (Hvalid : passesValidation (E := specEntities) (Sample.tokenToEther EXACT_INPUT)
                     (Sample.options (Sample.ether 5)) (Sample.ether 5) Sample.account)
    by (constructor; reflexivity).
  assert (Hamounts : computesAmounts (E := specEntities) (Sample.tokenToEther EXACT_INPUT)
                       (Sample.options (Sample.ether 5)) (Sample.tokens Sample.token0 100)
                       (Sample.ether 68))
    by (constructor; reflexivity).
  split; [ exact Hvalid | split; [ exact Hamounts | ] ].
  exact (args_are_record_then_tip_if_native_in (E := specEntities) Sample.clock _ _ _ _ _ _
           Hvalid Hamounts).
Defined.

(** A token-to-token trade: with a tip of 5 in the native asset the call
    returns. *)
Lemma returns_iff_native_tip_supplied_witness :
  bothNative (Sample.tokenToToken EXACT_INPUT) = false
  /\ Number_gtb (FeeRouter.ttl (Sample.options (Sample.ether 5))) (Number_ofZ 0) = true
  /\ computesAmounts (E := specEntities) (Sample.tokenToToken EXACT_INPUT)
       (Sample.options (Sample.ether 5)) (Sample.tokens Sample.token0 100)
       (Sample.tokens Sample.token1 68)
  /\ ((exists r,
         outcome (FeeRouter.swapCallParameters (E := specEntities) Sample.clock
                    (Sample.tokenToToken EXACT_INPUT) (Sample.options (Sample.ether 5)))
         = inr r)
      <-> (exists fee,
             FeeRouter.ethFee (Sample.options (Sample.ether 5)) = Some fee
             /\ currency fee = ETHER)).
Proof.
  assert (Hamounts : computesAmounts (E := specEntities) (Sample.tokenToToken EXACT_INPUT)
                       (Sample.options (Sample.ether 5)) (Sample.tokens Sample.token0 100)
                       (Sample.tokens Sample.token1 68))
    by (constructor; reflexivity).
  split; [ reflexivity | split; [ reflexivity | split; [ exact Hamounts | ] ] ].
  exact (returns_iff_native_tip_supplied (E := specEntities) Sample.clock
           (Sample.tokenToToken EXACT_INPUT) (Sample.options (Sample.ether 5))
           Sample.account _ _ eq_refl eq_refl eq_refl Hamounts).
Defined.

(** ** More about [toHex] *)

Lemma length_string_of_uint (d : uint) :
  String.length (NilEmpty.string_of_uint d) = nb_digits d.
Proof.
  induction d; simpl; try rewrite IHd; reflexivity.
Qed.

(** Reading digits into an accumulator shifts it by their number. *)
Lemma of_hex_uint_acc_bounds (d : uint) (acc : positive) :
  Z.pos acc * 16 ^ Z.of_nat (nb_digits d) <= Z.pos (Pos.of_hex_uint_acc d acc)
  /\ Z.pos (Pos.of_hex_uint_acc d acc) < (Z.pos acc + 1) * 16 ^ Z.of_nat (nb_digits d).
Proof.
  revert acc.
  induction d as [ |d IH|d IH|d IH|d IH|d IH|d IH|d IH|d IH
                   |d IH|d IH|d IH|d IH|d IH|d IH|d IH|d IH]; intros acc;
    [ simpl; lia | .. ];
    cbn [Pos.of_hex_uint_acc nb_digits];
    rewrite Nat2Z.inj_succ, Z.pow_succ_r by lia;
    match goal with
    | |- context [Pos.of_hex_uint_acc d ?a] => specialize (IH a)
    end;
    assert (Hpow : 0 < 16 ^ Z.of_nat (nb_digits d)) by (apply Z.pow_pos_nonneg; lia);
    rewrite ?Pos2Z.inj_add, ?Pos2Z.inj_mul in IH; nia.
Qed.

(** The number of digits of a positive number is its size in base 16. *)
Lemma to_hex_uint_width (p : positive) :
  16 ^ (Z.of_nat (nb_digits (Pos.to_hex_uint p)) - 1) <= Z.pos p
  /\ Z.pos p < 16 ^ Z.of_nat (nb_digits (Pos.to_hex_uint p)).
Proof.
  pose proof (HexadecimalPos.Unsigned.of_to p) as Hp.
  pose proof (to_hex_uint_no_leading_zero p) as Hz.
  pose proof (HexadecimalPos.Unsigned.to_uint_nonnil p) as Hnil.
  destruct (Pos.to_hex_uint p) as [ |d|d|d|d|d|d|d|d|d|d|d|d|d|d|d|d];
    try (exfalso; apply Hnil; reflexivity);
    try (exfalso; apply (Hz d); reflexivity);
    cbn [Pos.of_hex_uint] in Hp; injection Hp as Hp;
    cbn [nb_digits]; rewrite Nat2Z.inj_succ;
    replace (Z.succ (Z.of_nat (nb_digits d)) - 1) with (Z.of_nat (nb_digits d)) by lia;
    rewrite Z.pow_succ_r by lia;
    match type of Hp with
    | Pos.of_hex_uint_acc d ?a = _ =>
        pose proof (of_hex_uint_acc_bounds d a) as [Hlow Hhigh]
    end;
    rewrite Hp in Hlow, Hhigh;
    assert (Hpow : 0 < 16 ^ Z.of_nat (nb_digits d)) by (apply Z.pow_pos_nonneg; lia);
    nia.
Qed.

Lemma length_toHex (a : CurrencyAmount) :
  String.length (toHex a) = (2 + String.length (toString16 (raw a)))%nat.
Proof. reflexivity. Qed.

Lemma toString16_not_empty (n : Z) : toString16 n <> EmptyString.
Proof.
  destruct n as [ |p|p]; try discriminate.
  simpl. intros Hempty.
  pose proof (length_string_of_uint (Pos.to_hex_uint p)) as Hlen.
  rewrite Hempty in Hlen.
  pose proof (HexadecimalPos.Unsigned.to_uint_nonnil p) as Hnil.
  destruct (Pos.to_hex_uint p); try discriminate Hlen. apply Hnil. reflexivity.
Qed.

Lemma fromHex_0x_toString16 (n : Z) :
  0 <= n -> fromHex ("0x" ++ toString16 n) = Some n.
Proof.
  intros Hn. unfold fromHex. cbn [append].
  pose proof (toString16_not_empty n) as Hne.
  destruct (toString16 n) eqn:Hs; [ contradiction | ].
  rewrite <- Hs, (parseDigits_toString16 _ Hn). cbn [option_map].
  rewrite Z2N.id by exact Hn. reflexivity.
Qed.

(** X1.  Reading back the string that [toHex] makes of an amount that is
    not negative gives the raw integer of the amount, so two such amounts
    with the same string have the same raw integer. *)
Theorem fromHex_toHex (a : CurrencyAmount) :
  0 <= raw a ->
  fromHex (toHex a) = Some (raw a)
  /\ forall b, 0 <= raw b -> toHex a = toHex b -> raw a = raw b.
Proof.
  intros Ha. split.
  - apply fromHex_0x_toString16. exact Ha.
  - intros b Hb Heq.
    pose proof (fromHex_0x_toString16 (raw a) Ha) as H1.
    pose proof (fromHex_0x_toString16 (raw b) Hb) as H2.
    unfold toHex in Heq. rewrite Heq, H2 in H1. injection H1 as H1. symmetry. exact H1.
Qed.

(** X2.  [toHex] gives a [0x] string of unpadded lower-case digits exactly
    for the amounts that are not negative: a negative amount is printed
    with a minus sign after the prefix. *)
Theorem toHex_minimal_iff (a : CurrencyAmount) :
  isMinimalHex (toHex a) = true <-> 0 <= raw a.
Proof.
  split.
  - intros Hhex. destruct (Z.lt_ge_cases (raw a) 0) as [Hneg | Hpos]; [ | exact Hpos ].
    unfold toHex in Hhex. rewrite isMinimalHex_0x in Hhex.
    rewrite (toString16_negative _ Hneg) in Hhex. discriminate.
  - apply toHex_minimal.
Qed.

(** The digits of a positive number are as many as it has in base 16. *)
Lemma toString16_width (n : Z) :
  0 < n ->
  16 ^ (Z.of_nat (String.length (toString16 n)) - 1) <= n
  /\ n < 16 ^ Z.of_nat (String.length (toString16 n)).
Proof.
  intros Hn. destruct n as [ |p|p]; try lia.
  cbn [toString16]. rewrite length_string_of_uint.
  apply to_hex_uint_width.
Qed.

(** X3.  The string of a positive amount has as many digits as the amount
    has in base 16: with [k] digits after the prefix, the amount is at
    least 16^(k-1) and less than 16^k. *)
Theorem toHex_width (a : CurrencyAmount) :
  0 < raw a ->
  16 ^ (Z.of_nat (String.length (toHex a)) - 3) <= raw a
  /\ raw a < 16 ^ (Z.of_nat (String.length (toHex a)) - 2).
Proof.
  intros Ha. rewrite length_toHex.
  pose proof (toString16_width (raw a) Ha) as [Hlow Hhigh].
  replace (Z.of_nat (2 + String.length (toString16 (raw a))) - 3)
    with (Z.of_nat (String.length (toString16 (raw a))) - 1) by lia.
  replace (Z.of_nat (2 + String.length (toString16 (raw a))) - 2)
    with (Z.of_nat (String.length (toString16 (raw a)))) by lia.
  split; assumption.
Qed.

(** X4.  An amount within the maximum of a Solidity type is printed in at
    most a quarter as many digits as the type has bits: 2 for [uint8], 64
    for [uint256], after the two characters of the prefix. *)
Theorem toHex_fits_solidity_type (t : SolidityType) (maximum : Z) (a : CurrencyAmount) :
  SOLIDITY_TYPE_MAXIMA t = Some maximum ->
  0 <= raw a <= maximum ->
  Z.of_nat (String.length (toHex a)) <= 2 + bitsOf t / 4.
Proof.
  intros Hmax [Hlow Hhigh].
  assert (Hbound : maximum < 16 ^ (bitsOf t / 4)).
  { destruct t; vm_compute in Hmax; injection Hmax as <-; vm_compute; reflexivity. }
  assert (Hdigits : 0 <= bitsOf t / 4) by (destruct t; vm_compute; discriminate).
  destruct (Z.eq_dec (raw a) 0) as [Hzero | Hnonzero].
  - unfold toHex. rewrite Hzero. destruct t; vm_compute; discriminate.
  - pose proof (toString16_width (raw a) ltac:(lia)) as [Hwidth _].
    rewrite length_toHex.
    assert (Hlt : 16 ^ (Z.of_nat (String.length (toString16 (raw a))) - 1)
                  < 16 ^ (bitsOf t / 4)) by lia.
    apply Z.pow_lt_mono_r_iff in Hlt; lia.
Qed.

(** ** The first router on every input *)

Section FeeRouterEveryInput.
Context {E : Entities}.

(** Once the three invariants hold, the outcome is decided by what the
    collaborators return. *)
Lemma swapCallParameters_after_invariants now trade options fee :
  bothNative trade = false ->
  Number_gtb (FeeRouter.ttl options) (Number_ofZ 0) = true ->
  FeeRouter.ethFee options = Some fee ->
  currency fee = ETHER ->
  FeeRouter.swapCallParameters now trade options =
    (to <- call (CallValidateAndParseAddress (FeeRouter.recipient options))
                (validateAndParseAddress (FeeRouter.recipient options)) ;;
     maxIn <- call (CallMaximumAmountIn (FeeRouter.allowedSlippage options))
                   (maximumAmountIn trade (FeeRouter.allowedSlippage options)) ;;
     minOut <- call (CallMinimumAmountOut (FeeRouter.allowedSlippage options))
                    (minimumAmountOut trade (FeeRouter.allowedSlippage options)) ;;
     time <- getTime now ;;
     if isETHER (currency (inputAmount trade)) then
       total <- CurrencyAmount_add maxIn fee ;;
       ret {| methodName := spec_methodName (tradeType trade) NativeIn;
              args := [ArgSafeSwapTrade
                         (spec_safeSwapTrade time trade (FeeRouter.ttl options) to maxIn minOut);
                       ArgString (toHex fee)];
              value := toHex total |}
     else
       ret {| methodName := spec_methodName (tradeType trade) (nativePosition trade);
              args := [ArgSafeSwapTrade
                         (spec_safeSwapTrade time trade (FeeRouter.ttl options) to maxIn minOut)];
              value := toHex fee |}).
Proof.
  unfold bothNative. intros Hboth Httl Hfee Hnative.
  unfold FeeRouter.swapCallParameters, nativePosition, spec_safeSwapTrade.
  rewrite Hboth, Httl, Hfee, Hnative.
  destruct (validateAndParseAddress (FeeRouter.recipient options)); [ reflexivity | ].
  destruct (maximumAmountIn trade (FeeRouter.allowedSlippage options)); [ reflexivity | ].
  destruct (minimumAmountOut trade (FeeRouter.allowedSlippage options)); [ reflexivity | ].
  unfold CurrencyAmount_add.
  destruct (tradeType trade);
    destruct (currency (inputAmount trade));
    destruct (currency (outputAmount trade));
    try discriminate Hboth; cbn;
    try destruct (currencyEquals _ _); reflexivity.
Qed.

Lemma feeIsNative_supplied options :
  feeIsNative options = true ->
  exists fee, FeeRouter.ethFee options = Some fee /\ currency fee = ETHER.
Proof.
  unfold feeIsNative. destruct (FeeRouter.ethFee options) as [fee | ]; [ | discriminate ].
  intros Hfee. exists fee. split; [ reflexivity | ].
  destruct (currency fee); [ reflexivity | discriminate ].
Qed.

(** X5.  The first router returns parameters only for a trade and options
    that pass its four checks and whose amounts the trade computes, and the
    parameters are then the ones the validated inputs determine. *)
Theorem returns_only_after_validation now trade options r :
  outcome (FeeRouter.swapCallParameters now trade options) = inr r ->
  exists fee receiver maxIn minOut,
    passesValidation trade options fee receiver
    /\ maximumAmountIn trade (FeeRouter.allowedSlippage options) = inr maxIn
    /\ minimumAmountOut trade (FeeRouter.allowedSlippage options) = inr minOut
    /\ r = spec_swapParameters now trade options fee receiver maxIn minOut.
Proof.
  intros Hr.
  destruct (bothNative trade) eqn:Hboth.
  { rewrite (both_native_throws now trade options Hboth) in Hr. discriminate. }
  destruct (Number_gtb (FeeRouter.ttl options) (Number_ofZ 0)) eqn:Httl.
  2: { rewrite (ttl_not_positive_throws now trade options Hboth Httl) in Hr.
       discriminate. }
  destruct (feeIsNative options) eqn:Hfee.
  2: { rewrite (fee_check_throws now trade options Hboth Httl Hfee) in Hr.
       discriminate. }
  destruct (feeIsNative_supplied options Hfee) as (fee & Hsome & Hnative).
  rewrite (swapCallParameters_after_invariants now trade options fee
             Hboth Httl Hsome Hnative) in Hr.
  destruct (validateAndParseAddress (FeeRouter.recipient options))
    as [e | receiver] eqn:Hto; [ discriminate Hr | ].
  destruct (maximumAmountIn trade (FeeRouter.allowedSlippage options))
    as [e | maxIn] eqn:Hin; [ discriminate Hr | ].
  destruct (minimumAmountOut trade (FeeRouter.allowedSlippage options))
    as [e | minOut] eqn:Hout; [ discriminate Hr | ].
  exists fee, receiver, maxIn, minOut.
  split; [ constructor; assumption | ].
  split; [ reflexivity | split; [ reflexivity | ] ].
  unfold spec_swapParameters, nativePosition.
  unfold CurrencyAmount_add, nativePosition in Hr. rewrite Hnative in Hr.
  destruct (currency (inputAmount trade)); cbn in Hr.
  - destruct (currency maxIn); cbn in Hr; [ | discriminate Hr ].
    injection Hr as <-. reflexivity.
  - injection Hr as <-. reflexivity.
Qed.

Lemma validator_called_first now trade options :
  bothNative trade = false ->
  Number_gtb (FeeRouter.ttl options) (Number_ofZ 0) = true ->
  feeIsNative options = true ->
  exists rest,
    calls (FeeRouter.swapCallParameters now trade options)
    = CallValidateAndParseAddress (FeeRouter.recipient options) :: rest.
Proof.
  intros Hboth Httl Hfee.
  destruct (feeIsNative_supplied options Hfee) as (fee & Hsome & Hnative).
  rewrite (swapCallParameters_after_invariants now trade options fee
             Hboth Httl Hsome Hnative).
  destruct (validateAndParseAddress (FeeRouter.recipient options)) as [e | receiver].
  - eexists. reflexivity.
  - unfold bind at 1. unfold call at 1.
    match goal with
    | |- context [let (_, _) := ?rest in _] => destruct rest
    end.
    eexists. reflexivity.
Qed.

(** X6.  The first router throws without calling any collaborator exactly
    when one of its three invariants fails, and the error then names the
    first that fails: [ETHER_IN_OUT], then [TTL] (a ttl that is not greater
    than zero: zero, a negative number, or NaN), then the failure of the
    tip check, which has no message. *)
Theorem throws_before_any_call now trade options :
  let m := FeeRouter.swapCallParameters now trade options in
  (calls m = []
   <-> bothNative trade = true
       \/ Number_gtb (FeeRouter.ttl options) (Number_ofZ 0) = false
       \/ feeIsNative options = false)
  /\ (calls m = [] ->
      outcome m
      = inl (InvariantFailed
               (if bothNative trade then Some "ETHER_IN_OUT"
                else if Number_gtb (FeeRouter.ttl options) (Number_ofZ 0) then None
                else Some "TTL"))).
Proof.
  cbv zeta.
  destruct (bothNative trade) eqn:Hboth.
  { rewrite (both_native_throws now trade options Hboth). split; [ | reflexivity ].
    split; [ left | ]; reflexivity. }
  destruct (Number_gtb (FeeRouter.ttl options) (Number_ofZ 0)) eqn:Httl.
  2: { rewrite (ttl_not_positive_throws now trade options Hboth Httl).
       split; [ | reflexivity ]. split; [ right; left | ]; reflexivity. }
  destruct (feeIsNative options) eqn:Hfee.
  2: { rewrite (fee_check_throws now trade options Hboth Httl Hfee).
       split; [ | reflexivity ]. split; [ right; right | ]; reflexivity. }
  destruct (validator_called_first now trade options Hboth Httl Hfee) as [rest Hcalls].
  rewrite Hcalls. split.
  - split; [ discriminate | ].
    intros [H | [H | H] ]; discriminate H.
  - discriminate.
Qed.

End FeeRouterEveryInput.

(** ** Collaborators that throw, and the order of the calls *)

Section FeeRouterCalls.
Context {E : Entities}.

(** X7.  When the checks pass and [maximumAmountIn] or, after it,
    [minimumAmountOut] throws, the first router throws the same error,
    and it neither reads the clock nor adds the tip. *)
Theorem amount_errors_propagate now trade options fee receiver e :
  passesValidation trade options fee receiver ->
  maximumAmountIn trade (FeeRouter.allowedSlippage options) = inl e
  \/ (exists maxIn,
        maximumAmountIn trade (FeeRouter.allowedSlippage options) = inr maxIn
        /\ minimumAmountOut trade (FeeRouter.allowedSlippage options) = inl e) ->
  let m := FeeRouter.swapCallParameters now trade options in
  outcome m = inl e
  /\ ~ In CallGetTime (calls m)
  /\ forall a b, ~ In (CallAdd a b) (calls m).
Proof.
  intros [Hboth Httl Hfee Hnative Hto] Hthrows. cbv zeta.
  rewrite (swapCallParameters_after_invariants now trade options fee
             Hboth Httl Hfee Hnative), Hto.
  destruct Hthrows as [Hin | (maxIn & Hin & Hout)].
  - rewrite Hin. cbn. repeat split.
    + intros [H | [H | [] ] ]; discriminate H.
    + intros a b [H | [H | [] ] ]; discriminate H.
  - rewrite Hin, Hout. cbn. repeat split.
    + intros [H | [H | [H | [] ] ] ]; discriminate H.
    + intros a b [H | [H | [H | [] ] ] ]; discriminate H.
Qed.

(** X8.  On every input the calls of the first router are an initial part
    of the sequence validator, [maximumAmountIn], [minimumAmountOut],
    clock, each at most once and with the recipient and the tolerance of
    the options; the one call that can follow is the addition of the tip
    to the maximum input, and it is made only when the input currency is
    the native asset. *)
Theorem calls_follow_protocol now trade options :
  let m := FeeRouter.swapCallParameters now trade options in
  let protocol :=
    collaboratorCalls (FeeRouter.recipient options) (FeeRouter.allowedSlippage options) in
  (exists k, calls m = firstn k protocol)
  \/ (currency (inputAmount trade) = ETHER
      /\ exists maxIn fee,
           maximumAmountIn trade (FeeRouter.allowedSlippage options) = inr maxIn
           /\ FeeRouter.ethFee options = Some fee
           /\ calls m = (protocol ++ [CallAdd maxIn fee])%list).
Proof.
  cbv zeta.
  destruct (bothNative trade) eqn:Hboth.
  { rewrite (both_native_throws now trade options Hboth). left. exists 0%nat. reflexivity. }
  destruct (Number_gtb (FeeRouter.ttl options) (Number_ofZ 0)) eqn:Httl.
  2: { rewrite (ttl_not_positive_throws now trade options Hboth Httl).
       left. exists 0%nat. reflexivity. }
  destruct (feeIsNative options) eqn:Hfee.
  2: { rewrite (fee_check_throws now trade options Hboth Httl Hfee).
       left. exists 0%nat. reflexivity. }
  destruct (feeIsNative_supplied options Hfee) as (fee & Hsome & Hnative).
  rewrite (swapCallParameters_after_invariants now trade options fee
             Hboth Httl Hsome Hnative).
  destruct (validateAndParseAddress (FeeRouter.recipient options)) as [e | receiver].
  { left. exists 1%nat. reflexivity. }
  destruct (maximumAmountIn trade (FeeRouter.allowedSlippage options)) as [e | maxIn] eqn:Hin.
  { left. exists 2%nat. reflexivity. }
  destruct (minimumAmountOut trade (FeeRouter.allowedSlippage options)) as [e | minOut].
  { left. exists 3%nat. reflexivity. }
  unfold CurrencyAmount_add.
  destruct (currency (inputAmount trade)) eqn:Ein; cbn [isETHER].
  - right. split; [ reflexivity | ]. exists maxIn, fee.
    split; [ reflexivity | split; [ exact Hsome | ] ].
    cbn. destruct (currencyEquals (currency maxIn) (currency fee)); reflexivity.
  - left. exists 4%nat. reflexivity.
Qed.

End FeeRouterCalls.

(** ** What has no effect *)

Section NoEffect.
Context {E : Entities}.

(** X9.  The option [feeOnTransfer] has no effect: with any other value
    of it, each router makes the same calls and gives the same outcome. *)
Theorem feeOnTransfer_has_no_effect now trade flag options tipOptions :
  FeeRouter.swapCallParameters now trade (withFeeOnTransfer flag options)
  = FeeRouter.swapCallParameters now trade options
  /\ TipRouter.swapCallParameters now trade (tipWithFeeOnTransfer flag tipOptions)
     = TipRouter.swapCallParameters now trade tipOptions.
Proof. split; reflexivity. Qed.

(** X10.  The clock decides nothing but the deadline: at any two times the
    first router makes the same calls and throws the same error, or returns
    twice with the same method name, as many arguments and the same value;
    at two times within one second the parameters are the same. *)
Theorem clock_sets_only_deadline now later trade options :
  let m := FeeRouter.swapCallParameters now trade options in
  let m' := FeeRouter.swapCallParameters later trade options in
  calls m = calls m'
  /\ match outcome m, outcome m' with
     | inl e, inl e' => e = e'
     | inr r, inr r' =>
         methodName r = methodName r'
         /\ List.length (args r) = List.length (args r')
         /\ value r = value r'
         /\ (now / 1000 = later / 1000 -> r = r')
     | _, _ => False
     end.
Proof.
  cbv zeta.
  destruct (bothNative trade) eqn:Hboth.
  { rewrite !(both_native_throws _ trade options Hboth). split; reflexivity. }
  destruct (Number_gtb (FeeRouter.ttl options) (Number_ofZ 0)) eqn:Httl.
  2: { rewrite !(ttl_not_positive_throws _ trade options Hboth Httl). split; reflexivity. }
  destruct (feeIsNative options) eqn:Hfee.
  2: { rewrite !(fee_check_throws _ trade options Hboth Httl Hfee). split; reflexivity. }
  destruct (feeIsNative_supplied options Hfee) as (fee & Hsome & Hnative).
  rewrite !(swapCallParameters_after_invariants _ trade options fee
              Hboth Httl Hsome Hnative).
  destruct (validateAndParseAddress (FeeRouter.recipient options)) as [e | receiver];
    [ split; reflexivity | ].
  destruct (maximumAmountIn trade (FeeRouter.allowedSlippage options)) as [e | maxIn];
    [ split; reflexivity | ].
  destruct (minimumAmountOut trade (FeeRouter.allowedSlippage options)) as [e | minOut];
    [ split; reflexivity | ].
  unfold CurrencyAmount_add, spec_safeSwapTrade.
  destruct (currency (inputAmount trade)); cbn;
    try destruct (currencyEquals (currency maxIn) (currency fee)); cbn;
    (split; [ reflexivity | ]); try reflexivity;
    (split; [ reflexivity | split; [ reflexivity | split; [ reflexivity | ] ] ]);
    intros ->; reflexivity.
Qed.

End NoEffect.

(** ** The deadline *)

Section Deadline.
Context {E : Entities}.

(** X11.  For a trade and options that pass validation and whose ttl is a
    whole number of seconds, at a clock not before the epoch and with a
    sum of seconds below 2^53, the deadline in [args[0]] reads back as the
    whole seconds of the clock plus the ttl, a time that the clock has not
    yet reached. *)
Theorem deadline_is_ahead_of_clock now trade options fee receiver maxIn minOut seconds :
  passesValidation trade options fee receiver ->
  computesAmounts trade options maxIn minOut ->
  Number_toZ (FeeRouter.ttl options) = Some seconds ->
  now / 1000 + seconds < 2 ^ 53 ->
  0 <= now ->
  exists r t,
    outcome (FeeRouter.swapCallParameters now trade options) = inr r
    /\ nth_error (args r) 0 = Some (ArgSafeSwapTrade t)
    /\ fromHex (deadline t) = Some (now / 1000 + seconds)
    /\ now < 1000 * (now / 1000 + seconds).
Proof.
  intros Hvalid Hamounts Hwhole Hsafe Hnow.
  pose proof (ttl_positive _ _ _ _ Hvalid) as Httl.
  rewrite (Number_gtb_zero_whole _ _ Hwhole) in Httl. apply Z.ltb_lt in Httl.
  pose proof (Z.div_pos now 1000 Hnow ltac:(lia)) as Hseconds.
  eexists.
  exists (spec_safeSwapTrade now trade (FeeRouter.ttl options) receiver maxIn minOut).
  split; [ | split; [ | split ] ].
  - apply (swapCallParameters_returns now _ _ _ _ _ _ Hvalid Hamounts).
  - reflexivity.
  - cbn [deadline spec_safeSwapTrade].
    rewrite (Number_toString16_sum _ _ _ Hwhole) by lia.
    apply fromHex_0x_toString16. lia.
  - pose proof (Z.mod_pos_bound now 1000 ltac:(lia)) as Hmod.
    pose proof (Z.div_mod now 1000 ltac:(lia)) as Hdiv. lia.
Qed.

End Deadline.

(** From 2^53 on the sum of seconds is rounded: one second after the
    sample clock, with a ttl of 2^53 seconds, the deadline is one less than
    the sum. *)
Lemma deadline_rounds_from_2_53 :
  isDouble (FeeRouter.ttl MoreSamples.optionsWithLongTtl) = true
  /\ option_map fromHex
       (deadlineOf (FeeRouter.swapCallParameters (E := specEntities) (Sample.clock + 1000)
                      (Sample.tokenToToken EXACT_INPUT) MoreSamples.optionsWithLongTtl))
     = Some (Some ((Sample.clock + 1000) / 1000 + 2 ^ 53 - 1)).
Proof. split; vm_compute; reflexivity. Qed.

(** ** The second router on inputs that pass validation *)

Section TipRouterReturns.
Context {E : Entities}.

(** X12.  For a trade and options that pass the four checks of the second
    router, and amounts that the trade computes, the second router returns
    the method name of its own table for the trade type and the position
    of the native asset, the record followed by the tip exactly when the
    input is native, and as value the maximum input plus the tip when the
    input is native and the tip otherwise. *)
Theorem tip_router_returns now trade options tip receiver maxIn minOut :
  bothNative trade = false ->
  Number_gtb (TipRouter.ttl options) (Number_ofZ 0) = true ->
  TipRouter.ethTip options = Some tip ->
  currency tip = ETHER ->
  validateAndParseAddress (TipRouter.recipient options) = inr receiver ->
  maximumAmountIn trade (TipRouter.allowedSlippage options) = inr maxIn ->
  currency maxIn = currency (inputAmount trade) ->
  minimumAmountOut trade (TipRouter.allowedSlippage options) = inr minOut ->
  outcome (TipRouter.swapCallParameters now trade options) =
    inr {| methodName := tip_methodName (tradeType trade) (nativePosition trade);
           args :=
             ArgSafeSwapTrade
               (spec_safeSwapTrade now trade (TipRouter.ttl options) receiver maxIn minOut)
             :: (if isETHER (currency (inputAmount trade))
                 then [ArgString (toHex tip)] else []);
           value :=
             if isETHER (currency (inputAmount trade))
             then "0x" ++ toString16 (raw maxIn + raw tip)
             else toHex tip |}.
Proof.
  unfold bothNative. intros Hboth Httl Htip Hnative Hto Hin Hcur Hout.
  unfold TipRouter.swapCallParameters, nativePosition, spec_safeSwapTrade,
    CurrencyAmount_add.
  rewrite Hboth, Httl, Htip, Hnative, Hto, Hin, Hout.
  destruct (tradeType trade);
    destruct (currency (inputAmount trade)) eqn:Ein;
    destruct (currency (outputAmount trade)) eqn:Eout;
    try discriminate Hboth; cbn; rewrite ?Hcur, ?Hnative; reflexivity.
Qed.

End TipRouterReturns.

(** ** The tables as objects *)

Lemma property_of_table (table : ChainId -> string) (key : Z) (v : string) :
  property (map (fun c => (ChainId_value c, table c)) all_ChainId) key = Some v
  <-> exists c, ChainId_value c = key /\ v = table c.
Proof.
  split.
  - cbn -[Z.eqb].
    repeat match goal with
           | |- context [?k =? key] => destruct (Z.eqb_spec k key); [ subst key; cbn | ]
           end;
      intros Hv; try discriminate Hv; injection Hv as <-;
      eexists; (split; [ | reflexivity ]); reflexivity.
  - intros (c & <- & ->). destruct c; reflexivity.
Qed.

(** X13.  Reading either table at a number gives an entry exactly when the
    number is the value of a network identifier, and the entry is then the
    one written for that identifier: no identifier hides another, and any
    other number reads as undefined. *)
Theorem tables_read_by_network_id (key : Z) :
  (forall v,
     property FACTORY_ADDRESS_entries key = Some v
     <-> exists c, ChainId_value c = key /\ v = FACTORY_ADDRESS c)
  /\ (forall v,
        property INIT_CODE_HASH_entries key = Some v
        <-> exists c, ChainId_value c = key /\ v = INIT_CODE_HASH c)
  /\ ((forall c, ChainId_value c <> key) ->
      property FACTORY_ADDRESS_entries key = None
      /\ property INIT_CODE_HASH_entries key = None).
Proof.
  split; [ | split ].
  - intros v. apply property_of_table.
  - intros v. apply property_of_table.
  - intros Hkey. split.
    + destruct (property FACTORY_ADDRESS_entries key) as [v | ] eqn:Hv; [ | reflexivity ].
      apply property_of_table in Hv. destruct Hv as (c & Hc & _).
      exfalso. exact (Hkey c Hc).
    + destruct (property INIT_CODE_HASH_entries key) as [v | ] eqn:Hv; [ | reflexivity ].
      apply property_of_table in Hv. destruct Hv as (c & Hc & _).
      exfalso. exact (Hkey c Hc).
Qed.

(** ** The further theorems at sample inputs *)

(** The amount 255 is printed [0xff]. *)
Lemma fromHex_toHex_witness :
  0 <= raw (Sample.ether 255)
  /\ fromHex (toHex (Sample.ether 255)) = Some 255
  /\ forall b, 0 <= raw b -> toHex (Sample.ether 255) = toHex b -> 255 = raw b.
Proof.
  split; [ vm_compute; discriminate | ].
  apply (fromHex_toHex (Sample.ether 255)). vm_compute. discriminate.
Defined.

(** [0xff] has four characters, and 16 <= 255 < 256. *)
Lemma toHex_width_witness :
  0 < raw (Sample.ether 255)
  /\ 16 ^ (Z.of_nat (String.length (toHex (Sample.ether 255))) - 3) <= 255
  /\ 255 < 16 ^ (Z.of_nat (String.length (toHex (Sample.ether 255))) - 2).
Proof.
  split; [ reflexivity | ].
  apply (toHex_width (Sample.ether 255)). reflexivity.
Defined.

(** The largest [uint8] takes two digits. *)
Lemma toHex_fits_solidity_type_witness :
  SOLIDITY_TYPE_MAXIMA uint8 = Some 255
  /\ 0 <= raw (Sample.ether 255) <= 255
  /\ Z.of_nat (String.length (toHex (Sample.ether 255))) <= 2 + bitsOf uint8 / 4.
Proof.
  split; [ reflexivity | ].
  split; [ split; vm_compute; discriminate | ].
  apply (toHex_fits_solidity_type uint8 255 (Sample.ether 255)).
  - reflexivity.
  - split; vm_compute; discriminate.
Defined.

(** The exact-output trade from the native asset with a tip of 5 returns;
    so it passed the checks. *)
Lemma returns_only_after_validation_witness :
  outcome (FeeRouter.swapCallParameters (E := specEntities) Sample.clock
             (Sample.etherToToken EXACT_OUTPUT) (Sample.options (Sample.ether 5)))
  = inr (spec_swapParameters Sample.clock (Sample.etherToToken EXACT_OUTPUT)
           (Sample.options (Sample.ether 5)) (Sample.ether 5) Sample.account
           (Sample.ether 101) (Sample.tokens Sample.token0 69))
  /\ exists fee receiver maxIn minOut,
       passesValidation (E := specEntities) (Sample.etherToToken EXACT_OUTPUT)
         (Sample.options (Sample.ether 5)) fee receiver
       /\ spec_maximumAmountIn (Sample.etherToToken EXACT_OUTPUT) Sample.onePercent
          = inr maxIn
       /\ spec_minimumAmountOut (Sample.etherToToken EXACT_OUTPUT) Sample.onePercent
          = inr minOut
       /\ spec_swapParameters Sample.clock (Sample.etherToToken EXACT_OUTPUT)
            (Sample.options (Sample.ether 5)) (Sample.ether 5) Sample.account
            (Sample.ether 101) (Sample.tokens Sample.token0 69)
          = spec_swapParameters Sample.clock (Sample.etherToToken EXACT_OUTPUT)
              (Sample.options (Sample.ether 5)) fee receiver maxIn minOut.
Proof.
  split; [ reflexivity | ].
  exact (returns_only_after_validation (E := specEntities) Sample.clock
           (Sample.etherToToken EXACT_OUTPUT) (Sample.options (Sample.ether 5)) _ eq_refl).
Defined.

(** With a tolerance whose denominator is zero the maximum input of an
    exact-output trade cannot be computed. *)
Lemma amount_errors_propagate_witness :
  passesValidation (E := specEntities) (Sample.etherToToken EXACT_OUTPUT)
    MoreSamples.optionsWithNoPercent (Sample.ether 5) Sample.account
  /\ spec_maximumAmountIn (Sample.etherToToken EXACT_OUTPUT) MoreSamples.noPercent
     = inl DivisionByZero
  /\ outcome (FeeRouter.swapCallParameters (E := specEntities) Sample.clock
                (Sample.etherToToken EXACT_OUTPUT) MoreSamples.optionsWithNoPercent)
     = inl DivisionByZero
  /\ ~ In CallGetTime
         (calls (FeeRouter.swapCallParameters (E := specEntities) Sample.clock
                   (Sample.etherToToken EXACT_OUTPUT) MoreSamples.optionsWithNoPercent))
  /\ forall a b,
       ~ In (CallAdd a b)
           (calls (FeeRouter.swapCallParameters (E := specEntities) Sample.clock
                     (Sample.etherToToken EXACT_OUTPUT) MoreSamples.optionsWithNoPercent)).
Proof.
  assert (Hvalid : passesValidation (E := specEntities) (Sample.etherToToken EXACT_OUTPUT)
                     MoreSamples.optionsWithNoPercent (Sample.ether 5) Sample.account)
    by (constructor; reflexivity).
  split; [ exact Hvalid | split; [ reflexivity | ] ].
  exact (amount_errors_propagate (E := specEntities) Sample.clock
           (Sample.etherToToken EXACT_OUTPUT) MoreSamples.optionsWithNoPercent
           (Sample.ether 5) Sample.account DivisionByZero Hvalid (or_introl eq_refl)).
Defined.

(** At the sample clock, 1619827200 seconds, and a ttl of 1200. *)
Lemma deadline_is_ahead_of_clock_witness :
  passesValidation (E := specEntities) (Sample.tokenToToken EXACT_INPUT)
    (Sample.options (Sample.ether 5)) (Sample.ether 5) Sample.account
  /\ computesAmounts (E := specEntities) (Sample.tokenToToken EXACT_INPUT)
       (Sample.options (Sample.ether 5)) (Sample.tokens Sample.token0 100)
       (Sample.tokens Sample.token1 68)
  /\ Number_toZ (FeeRouter.ttl (Sample.options (Sample.ether 5))) = Some 1200
  /\ Sample.clock / 1000 + 1200 < 2 ^ 53
  /\ 0 <= Sample.clock
  /\ exists r t,
       outcome (FeeRouter.swapCallParameters (E := specEntities) Sample.clock
                  (Sample.tokenToToken EXACT_INPUT) (Sample.options (Sample.ether 5)))
       = inr r
       /\ nth_error (args r) 0 = Some (ArgSafeSwapTrade t)
       /\ fromHex (deadline t) = Some (Sample.clock / 1000 + 1200)
       /\ Sample.clock < 1000 * (Sample.clock / 1000 + 1200).
Proof.
  assert (Hvalid : passesValidation (E := specEntities) (Sample.tokenToToken EXACT_INPUT)
                     (Sample.options (Sample.ether 5)) (Sample.ether 5) Sample.account)
    by (constructor; reflexivity).
  assert (Hamounts : computesAmounts (E := specEntities) (Sample.tokenToToken EXACT_INPUT)
                       (Sample.options (Sample.ether 5)) (Sample.tokens Sample.token0 100)
                       (Sample.tokens Sample.token1 68))
    by (constructor; reflexivity).
  assert (Hsafe : Sample.clock / 1000 + 1200 < 2 ^ 53) by reflexivity.
  assert (Hclock : 0 <= Sample.clock) by (vm_compute; discriminate).
  split; [ exact Hvalid | split; [ exact Hamounts | ] ].
  split; [ reflexivity | split; [ exact Hsafe | split; [ exact Hclock | ] ] ].
  exact (deadline_is_ahead_of_clock (E := specEntities) Sample.clock _ _ _ _ _ _ 1200
           Hvalid Hamounts eq_refl Hsafe Hclock).
Defined.

(** The second router on the exact-output trade from the native asset. *)
Lemma tip_router_returns_witness :
  outcome (TipRouter.swapCallParameters (E := specEntities) Sample.clock
             (Sample.etherToToken EXACT_OUTPUT)
             (Sample.tipOptions 1200 Sample.account (Some (Sample.ether 5))))
  = inr {| methodName := "swapETHForExactTokensWithTipAmount";
           args :=
             [ArgSafeSwapTrade
                (spec_safeSwapTrade Sample.clock (Sample.etherToToken EXACT_OUTPUT)
                   (Number_ofZ 1200)
                   Sample.account (Sample.ether 101) (Sample.tokens Sample.token0 69));
              ArgString "0x5"];
           value := "0x6a" |}.
Proof.
  exact (tip_router_returns (E := specEntities) Sample.clock
           (Sample.etherToToken EXACT_OUTPUT)
           (Sample.tipOptions 1200 Sample.account (Some (Sample.ether 5)))
           (Sample.ether 5) Sample.account (Sample.ether 101)
           (Sample.tokens Sample.token0 69)
           eq_refl eq_refl eq_refl eq_refl eq_refl eq_refl eq_refl eq_refl).
Defined.
